(** * validate-snapshot.py: snapshot self-consistency validator

    A shallow embedding of [src/validate-snapshot.py] and the properties
    of its stream detector, snapshot reader, bundle reference extractor,
    validator and command-line entry point.

    Python [str] values are modelled as [string] (a sequence of bytes),
    the parsed JSON document as [pyval], the [components] dict as a
    [gmap string string], and every interaction with the outside
    (subprocesses, temporary files, reading files) as a call to one host
    oracle that threads an abstract world state.  Printing and host calls
    are recorded in a trace. *)

From Stdlib Require Import ZArith List Ascii String Bool Lia.
From stdpp Require Import gmap strings list fin_maps.

Import ListNotations.
Local Open Scope string_scope.
Local Open Scope list_scope.
Local Open Scope Z_scope.

(** ** Python string operations used by the script *)

Module PyStr.

(** [s.startswith(p)]. *)
Fixpoint startswith (p s : string) : bool :=
  match p with
  | EmptyString => true
  | String a p' =>
      match s with
      | EmptyString => false
      | String b s' => if Ascii.eqb a b then startswith p' s' else false
      end
  end.

(** [sub in s]: some suffix of [s] starts with [sub]. *)
Fixpoint str_in (sub s : string) : bool :=
  if startswith sub s then true
  else match s with
       | EmptyString => false
       | String _ s' => str_in sub s'
       end.

(** What [sub in s] is meant to decide. *)
Definition Contains (sub s : string) : Prop :=
  exists pre post, s = pre +:+ sub +:+ post.

(** [s.split(sep)] for a one-character separator: [(cur, rest)] is the
    piece being read and the pieces after it. *)
Fixpoint split_aux (sep : ascii) (s : string) : string * list string :=
  match s with
  | EmptyString => (EmptyString, [])
  | String c s' =>
      let '(cur, rest) := split_aux sep s' in
      if Ascii.eqb c sep then (EmptyString, cur :: rest)
      else (String c cur, rest)
  end.

Definition split (sep : ascii) (s : string) : list string :=
  let '(cur, rest) := split_aux sep s in cur :: rest.

(** The text after the first occurrence of [sep], if there is one. *)
Fixpoint after_first (sep : ascii) (s : string) : option string :=
  match s with
  | EmptyString => None
  | String c s' => if Ascii.eqb c sep then Some s' else after_first sep s'
  end.

(** No occurrence of the character [c]. *)
Fixpoint lacks (c : ascii) (s : string) : bool :=
  match s with
  | EmptyString => true
  | String a s' => if Ascii.eqb a c then false else lacks c s'
  end.

(** [str.isspace] on one byte: tab to carriage return, the four
    separators 28..31, and the blank. *)
Definition isspace (c : ascii) : bool :=
  let n := nat_of_ascii c in
  ((9 <=? n)%nat && (n <=? 13)%nat) || ((28 <=? n)%nat && (n <=? 32)%nat).

Fixpoint lstrip (s : string) : string :=
  match s with
  | EmptyString => EmptyString
  | String c s' => if isspace c then lstrip s' else s
  end.

(** [rstrip] keeps a character when it is not a space or when something
    is kept after it. *)
Fixpoint rstrip (s : string) : string :=
  match s with
  | EmptyString => EmptyString
  | String c s' =>
      match rstrip s' with
      | EmptyString => if isspace c then EmptyString else String c EmptyString
      | r => String c r
      end
  end.

(** [s.strip()]. *)
Definition strip (s : string) : string := rstrip (lstrip s).

(** Every character of [s] is in the class [cls]. *)
Fixpoint all (cls : ascii -> bool) (s : string) : bool :=
  match s with
  | EmptyString => true
  | String c s' => cls c && all cls s'
  end.

(** How an f-string renders a value that is a [str] or [None]. *)
Definition fmt (o : option string) : string :=
  match o with
  | Some s => s
  | None => "None"
  end.

End PyStr.

(** ** The fragment of Python's [re] that the script's patterns use *)

Module Re.

(** Patterns: a literal, [c*] and [c+] over a one-character class (both
    greedy), concatenation and a capturing group. *)
Inductive regex : Type :=
| Lit (s : string)
| Star (cls : ascii -> bool)
| Plus (cls : ascii -> bool)
| Cat (r1 r2 : regex)
| Group (r : regex).

(** [.] without DOTALL: any character but the line feed. *)
Definition dot (c : ascii) : bool := negb (Ascii.eqb c "010"%char).

(** [[a-f0-9]]. *)
Definition hex_lower (c : ascii) : bool :=
  let n := nat_of_ascii c in
  ((97 <=? n)%nat && (n <=? 102)%nat) || ((48 <=? n)%nat && (n <=? 57)%nat).

(** The rest of [s] after the literal [p], when [s] starts with it. *)
Fixpoint strip_lit (p s : string) : option string :=
  match p with
  | EmptyString => Some s
  | String a p' =>
      match s with
      | EmptyString => None
      | String b s' => if Ascii.eqb a b then strip_lit p' s' else None
      end
  end.

(** Greedy repetition with backtracking: take one more character when
    that leads to a match, otherwise continue from here. *)
Fixpoint star {A : Type} (cls : ascii -> bool) (s : string)
         (k : string -> option A) : option A :=
  match s with
  | EmptyString => k s
  | String c s' =>
      if cls c then
        match star cls s' k with
        | Some m => Some m
        | None => k s
        end
      else k s
  end.

Definition plus {A : Type} (cls : ascii -> bool) (s : string)
           (k : string -> option A) : option A :=
  match s with
  | EmptyString => None
  | String c s' => if cls c then star cls s' k else None
  end.

(** The part of [s] read so far when [rest] is what remains. *)
Definition consumed (s rest : string) : string :=
  substring 0 (String.length s - String.length rest)%nat s.

(** Backtracking matcher anchored at the start of [s]; [caps] are the
    groups closed so far, [k] tries the rest of the pattern. *)
Fixpoint run (r : regex) (s : string) (caps : list string)
         (k : string -> list string -> option (list string))
  : option (list string) :=
  match r with
  | Lit p =>
      match strip_lit p s with
      | Some rest => k rest caps
      | None => None
      end
  | Star cls => star cls s (fun rest => k rest caps)
  | Plus cls => plus cls s (fun rest => k rest caps)
  | Cat r1 r2 => run r1 s caps (fun rest caps' => run r2 rest caps' k)
  | Group r1 =>
      run r1 s caps (fun rest caps' => k rest (caps' ++ [consumed s rest]))
  end.

(** [re.match]: the groups of a match anchored at the start. *)
Definition match_here (r : regex) (s : string) : option (list string) :=
  run r s [] (fun _ caps => Some caps).

(** [re.search]: the match at the leftmost position that has one. *)
Fixpoint search (r : regex) (s : string) : option (list string) :=
  match match_here r s with
  | Some m => Some m
  | None =>
      match s with
      | EmptyString => None
      | String _ s' => search r s'
      end
  end.

(** Number of capturing groups of a pattern. *)
Fixpoint ngroups (r : regex) : nat :=
  match r with
  | Lit _ | Star _ | Plus _ => 0
  | Cat r1 r2 => (ngroups r1 + ngroups r2)%nat
  | Group r1 => S (ngroups r1)
  end.

End Re.

(** ** Python values and exceptions *)

(** The exceptions the script can meet; all derive from [Exception]. *)
Inductive exn : Type :=
| CalledProcessError (msg : string)
| ValueError (msg : string)
| KeyError (key : string)
| IndexError (msg : string)
| TypeError (msg : string)
| AttributeError (msg : string)
| OtherError (msg : string).

(** [str(e)].  A [KeyError] shows the [repr] of its key; every key of
    this script is free of quotes and escapes. *)
Definition str_exn (e : exn) : string :=
  match e with
  | CalledProcessError msg => msg
  | ValueError msg => msg
  | KeyError key => "'" +:+ key +:+ "'"
  | IndexError msg => msg
  | TypeError msg => msg
  | AttributeError msg => msg
  | OtherError msg => msg
  end.

(** [isinstance(e, subprocess.CalledProcessError)]. *)
Definition is_CalledProcessError (e : exn) : bool :=
  match e with
  | CalledProcessError _ => true
  | _ => false
  end.

(** A pure computation that returns or raises. *)
Definition E (A : Type) : Type := exn + A.

Definition ebind {A B : Type} (c : E A) (k : A -> E B) : E B :=
  match c with
  | inl e => inl e
  | inr a => k a
  end.

Declare Scope py_scope.
Delimit Scope py_scope with py.
Notation "x <~ c ;; k" := (ebind c (fun x => k))
  (at level 100, c at next level, right associativity) : py_scope.

(** What [json.loads] returns. *)
#[local] Unset Elimination Schemes.
Inductive pyval : Type :=
| PNone
| PBool (b : bool)
| PInt (z : Z)
| PFloat (lit : string)
| PStr (s : string)
| PList (l : list pyval)
| PDict (kvs : list (string * pyval)).
#[local] Set Elimination Schemes.

Definition type_name (v : pyval) : string :=
  match v with
  | PNone => "NoneType"
  | PBool _ => "bool"
  | PInt _ => "int"
  | PFloat _ => "float"
  | PStr _ => "str"
  | PList _ => "list"
  | PDict _ => "dict"
  end.

Fixpoint dict_get (key : string) (kvs : list (string * pyval)) : option pyval :=
  match kvs with
  | [] => None
  | (k, v) :: kvs' => if String.eqb k key then Some v else dict_get key kvs'
  end.

(** [v[key]] for a string key. *)
Definition getitem (v : pyval) (key : string) : E pyval :=
  match v with
  | PDict kvs =>
      match dict_get key kvs with
      | Some x => inr x
      | None => inl (KeyError key)
      end
  | PList _ => inl (TypeError "list indices must be integers or slices, not str")
  | PStr _ => inl (TypeError "string indices must be integers, not 'str'")
  | _ => inl (TypeError ("'" +:+ type_name v +:+ "' object is not subscriptable"))
  end.

Fixpoint chars (s : string) : list pyval :=
  match s with
  | EmptyString => []
  | String c s' => PStr (String c EmptyString) :: chars s'
  end.

(** The items a [for] loop over [v] visits: the elements of a list, the
    keys of a dict, the characters of a string. *)
Definition iter (v : pyval) : E (list pyval) :=
  match v with
  | PList l => inr l
  | PDict kvs => inr (map (fun kv => PStr (fst kv)) kvs)
  | PStr s => inr (chars s)
  | _ => inl (TypeError ("'" +:+ type_name v +:+ "' object is not iterable"))
  end.

(** [v.split(sep)]: only a [str] has the method. *)
Definition py_split (v : pyval) (sep : ascii) : E (list string) :=
  match v with
  | PStr s => inr (PyStr.split sep s)
  | _ => inl (AttributeError ("'" +:+ type_name v +:+ "' object has no attribute 'split'"))
  end.

(** [l[i]] on a list. *)
Definition list_index {A : Type} (l : list A) (i : nat) : E A :=
  match nth_error l i with
  | Some x => inr x
  | None => inl (IndexError "list index out of range")
  end.

(** [d[name] = sha].  A list or dict is unhashable.  A hashable name that
    is not a [str] is stored under a key that none of the script's
    lookups, which all use [str] keys, can reach; the map keeps the [str]
    keys only. *)
Definition setitem (d : gmap string string) (name : pyval) (sha : string)
  : E (gmap string string) :=
  match name with
  | PStr k => inr (<[k := sha]> d)
  | PList _ | PDict _ => inl (TypeError ("unhashable type: '" +:+ type_name name +:+ "'"))
  | _ => inr d
  end.

(** [d[key]] on the components dict. *)
Definition dict_lookup (d : gmap string string) (key : string) : E string :=
  match d !! key with
  | Some v => inr v
  | None => inl (KeyError key)
  end.

(** ** The host: subprocesses, temporary files, file reads *)

Inductive syscall : Type :=
| SubprocessRun (cmd : list string)
| TempFileOpen (suffix : string)
| TempFileClose (name : string)
| ReadFile (name : string).

(** What a run leaves behind, in order. *)
Inductive event : Type :=
| EvSys (c : syscall)
| EvOut (text : string)
| EvErr (text : string).

Definition nl : string := String "010"%char EmptyString.

(** ** The script *)

(** The three roles the validator compares. *)
Inductive role : Type := Operator | Agent | Daemon.

(** The dict [extract_bundle_refs] returns: a digest or [None] per role. *)
Record refs : Type := mkRefs {
  operator : option string;
  agent : option string;
  daemon : option string
}.

(** The three patterns of [extract_bundle_refs]. *)
Definition sha_group : Re.regex :=
  Re.Group (Re.Cat (Re.Lit "sha256:") (Re.Plus Re.hex_lower)).

Definition operator_re : Re.regex :=
  Re.Cat (Re.Lit "registry.redhat.io/bpfman/bpfman-rhel9-operator@") sha_group.

Definition agent_re : Re.regex :=
  Re.Cat (Re.Lit "bpfman.agent.image:")
    (Re.Cat (Re.Star Re.dot) (Re.Cat (Re.Lit "@") sha_group)).

Definition daemon_re : Re.regex :=
  Re.Cat (Re.Lit "bpfman.image:")
    (Re.Cat (Re.Star Re.dot) (Re.Cat (Re.Lit "@") sha_group)).

(** [m.group(1) if m else None]. *)
Definition group1_or_None (m : option (list string)) : E (option string) :=
  match m with
  | Some caps =>
      match nth_error caps 0 with
      | Some g => inr (Some g)
      | None => inl (IndexError "no such group")
      end
  | None => inr None
  end.

Definition detect_stream (snapshot_name : string) : E string :=
  if PyStr.str_in "ystream" snapshot_name then inr "ystream"
  else if PyStr.str_in "zstream" snapshot_name then inr "zstream"
  else inl (ValueError ("Cannot detect stream from snapshot name: " +:+ snapshot_name)).

(** [image.split("@")[1]] of the snapshot reader. *)
Definition image_sha (image : pyval) : E string :=
  (parts <~ py_split image "@" ;;
   list_index parts 1)%py.

(** One turn of the loop of [get_snapshot_components]. *)
Definition add_component (components : gmap string string) (comp : pyval)
  : E (gmap string string) :=
  (name <~ getitem comp "name" ;;
   image <~ getitem comp "containerImage" ;;
   sha <~ image_sha image ;;
   setitem components name sha)%py.

Fixpoint add_components (comps : list pyval) (components : gmap string string)
  : E (gmap string string) :=
  match comps with
  | [] => inr components
  | comp :: rest =>
      (components' <~ add_component components comp ;;
       add_components rest components')%py
  end.

(** The part of [extract_bundle_refs] after the [finally]. *)
Definition parse_refs (csv_content cm_content : string) : E refs :=
  (operator_sha <~ group1_or_None (Re.search operator_re csv_content) ;;
   agent_sha <~ group1_or_None (Re.search agent_re cm_content) ;;
   daemon_sha <~ group1_or_None (Re.search daemon_re cm_content) ;;
   inr (mkRefs operator_sha agent_sha daemon_sha))%py.

Definition oc_cmd (snapshot_name namespace : string) : list string :=
  ["oc"; "get"; "snapshot"; "-n"; namespace; snapshot_name; "-o"; "json"].

Definition bundle_image (bundle_sha stream : string) : string :=
  "quay.io/redhat-user-workloads/ocp-bpfman-tenant/bpfman-operator-bundle-"
    +:+ stream +:+ "@" +:+ bundle_sha.

Definition create_cmd (bundle_sha stream : string) : list string :=
  ["podman"; "create"; bundle_image bundle_sha stream].

Definition cp_csv_cmd (container_id file_name : string) : list string :=
  ["podman"; "cp";
   container_id +:+ ":/manifests/bpfman-operator.clusterserviceversion.yaml";
   file_name].

Definition cp_cm_cmd (container_id file_name : string) : list string :=
  ["podman"; "cp";
   container_id +:+ ":/manifests/bpfman-config_v1_configmap.yaml";
   file_name].

Definition rm_cmd (container_id : string) : list string :=
  ["podman"; "rm"; container_id].

(** The component key of a role, [f"bpfman-<role>-{stream}"]. *)
Definition component_key (r : role) (stream : string) : string :=
  match r with
  | Operator => "bpfman-operator-" +:+ stream
  | Agent => "bpfman-agent-" +:+ stream
  | Daemon => "bpfman-daemon-" +:+ stream
  end.

Definition bundle_key (stream : string) : string :=
  "bpfman-operator-bundle-" +:+ stream.

Definition ref_of (rf : refs) (r : role) : option string :=
  match r with
  | Operator => operator rf
  | Agent => agent rf
  | Daemon => daemon rf
  end.

(** The lines the validator prints for a role. *)
Definition mismatch_line (r : role) : string :=
  match r with
  | Operator => "❌ MISMATCH: CSV operator != Snapshot operator"
  | Agent => "❌ MISMATCH: ConfigMap agent != Snapshot agent"
  | Daemon => "❌ MISMATCH: ConfigMap daemon != Snapshot daemon"
  end.

Definition match_line (r : role) : string :=
  match r with
  | Operator => "✅ CSV operator matches snapshot"
  | Agent => "✅ ConfigMap agent matches snapshot"
  | Daemon => "✅ ConfigMap daemon matches snapshot"
  end.

(** [a != b] between an extracted reference ([str] or [None]) and a
    snapshot digest ([str]). *)
Definition differs (a : option string) (b : string) : bool :=
  match a with
  | Some x => negb (String.eqb x b)
  | None => true
  end.

(** ** Concrete hosts, to run the script on *)

Module Demo.

(** What the outside answers in one scenario: the result of each
    command and the text of the two manifests. *)
Record scenario : Type := mkScenario {
  sc_oc : E string;
  sc_create : E string;
  sc_cp_csv : E string;
  sc_cp_cm : E string;
  sc_rm : E string;
  sc_csv : string;
  sc_cm : string
}.

Definition is_cmd (cmd : list string) (tool verb : string) : bool :=
  match cmd with
  | a :: b :: _ => String.eqb a tool && String.eqb b verb
  | _ => false
  end.

(** The world counts the temporary files handed out. *)
Definition host (sc : scenario) (c : syscall) (w : nat) : nat * E string :=
  match c with
  | SubprocessRun cmd =>
      if is_cmd cmd "oc" "get" then (w, sc_oc sc)
      else if is_cmd cmd "podman" "create" then (w, sc_create sc)
      else if is_cmd cmd "podman" "rm" then (w, sc_rm sc)
      else if is_cmd cmd "podman" "cp" then
        (w, if PyStr.str_in "clusterserviceversion" (nth 2 cmd "")
            then sc_cp_csv sc else sc_cp_cm sc)
      else (w, inl (OtherError "No such file or directory"))
  | TempFileOpen suffix =>
      (S w, inr ((if Nat.eqb w 0 then "/tmp/tmpa" else "/tmp/tmpb") +:+ suffix))
  | TempFileClose _ => (w, inr "")
  | ReadFile name =>
      (w, inr (if String.eqb name "/tmp/tmpa.yaml" then sc_csv sc else sc_cm sc))
  end.

Definition component (name image : string) : pyval :=
  PDict [("name", PStr name); ("containerImage", PStr image)].

Definition repo : string :=
  "quay.io/redhat-user-workloads/ocp-bpfman-tenant/".

(** A snapshot with the four ystream components. *)
Definition snapshot_doc : pyval :=
  PDict [("spec", PDict [("components", PList [
    component "bpfman-operator-ystream" (repo +:+ "bpfman-operator-ystream@sha256:111");
    component "bpfman-agent-ystream" (repo +:+ "bpfman-agent-ystream@sha256:222");
    component "bpfman-daemon-ystream" (repo +:+ "bpfman-daemon-ystream@sha256:333");
    component "bpfman-operator-bundle-ystream"
      (repo +:+ "bpfman-operator-bundle-ystream@sha256:999")])])].

(** The same without the daemon component. *)
Definition snapshot_doc_no_daemon : pyval :=
  PDict [("spec", PDict [("components", PList [
    component "bpfman-operator-ystream" (repo +:+ "bpfman-operator-ystream@sha256:111");
    component "bpfman-agent-ystream" (repo +:+ "bpfman-agent-ystream@sha256:222");
    component "bpfman-operator-bundle-ystream"
      (repo +:+ "bpfman-operator-bundle-ystream@sha256:999")])])].

(** The same with an agent image that carries a tag and no digest. *)
Definition snapshot_doc_no_at : pyval :=
  PDict [("spec", PDict [("components", PList [
    component "bpfman-operator-ystream" (repo +:+ "bpfman-operator-ystream@sha256:111");
    component "bpfman-agent-ystream" (repo +:+ "bpfman-agent-ystream:latest");
    component "bpfman-daemon-ystream" (repo +:+ "bpfman-daemon-ystream@sha256:333");
    component "bpfman-operator-bundle-ystream"
      (repo +:+ "bpfman-operator-bundle-ystream@sha256:999")])])].

(** The components dict read from [snapshot_doc]. *)
Definition components : gmap string string :=
  <["bpfman-operator-bundle-ystream" := "sha256:999"]>
    (<["bpfman-daemon-ystream" := "sha256:333"]>
       (<["bpfman-agent-ystream" := "sha256:222"]>
          (<["bpfman-operator-ystream" := "sha256:111"]> ∅))).

(** The snapshot digest of each role in [snapshot_doc]. *)
Definition snap (r : role) : string :=
  match r with
  | Operator => "sha256:111"
  | Agent => "sha256:222"
  | Daemon => "sha256:333"
  end.

(** [json.loads] on the texts the scenarios use. *)
Definition json_loads (text : string) : E pyval :=
  if String.eqb text "<snapshot>" then inr snapshot_doc
  else if String.eqb text "<snapshot without daemon>" then inr snapshot_doc_no_daemon
  else if String.eqb text "<snapshot without digest>" then inr snapshot_doc_no_at
  else inl (ValueError "Expecting value: line 1 column 1 (char 0)").

Definition csv_text : string :=
  "          image: registry.redhat.io/bpfman/bpfman-rhel9-operator@sha256:111" +:+ nl.

Definition cm_text (agent_digest : string) : string :=
  "  bpfman.agent.image: registry.redhat.io/bpfman/bpfman-agent@" +:+ agent_digest +:+ nl
  +:+ "  bpfman.image: registry.redhat.io/bpfman/bpfman@sha256:333" +:+ nl.

(** A ConfigMap without the daemon line. *)
Definition cm_text_no_daemon : string :=
  "  bpfman.agent.image: registry.redhat.io/bpfman/bpfman-agent@sha256:222" +:+ nl.

Definition failed (cmd : string) : E string :=
  inl (CalledProcessError ("Command '" +:+ cmd +:+ "' returned non-zero exit status 125.")).

(** Everything succeeds and the bundle agrees with the snapshot. *)
Definition all_good : scenario :=
  mkScenario (inr "<snapshot>") (inr ("c0ffee" +:+ nl)) (inr "") (inr "") (inr "c0ffee")
    csv_text (cm_text "sha256:222").

(** The ConfigMap names another agent digest. *)
Definition agent_differs : scenario :=
  mkScenario (inr "<snapshot>") (inr ("c0ffee" +:+ nl)) (inr "") (inr "") (inr "c0ffee")
    csv_text (cm_text "sha256:444").

(** The ConfigMap has no daemon line. *)
Definition daemon_missing : scenario :=
  mkScenario (inr "<snapshot>") (inr ("c0ffee" +:+ nl)) (inr "") (inr "") (inr "c0ffee")
    csv_text cm_text_no_daemon.

(** The copy of the ConfigMap fails after the copy of the CSV succeeded. *)
Definition second_copy_fails : scenario :=
  mkScenario (inr "<snapshot>") (inr ("c0ffee" +:+ nl)) (inr "") (failed "podman cp") (inr "c0ffee")
    csv_text "".

(** The cluster query fails. *)
Definition query_fails : scenario :=
  mkScenario (failed "oc get snapshot") (inr ("c0ffee" +:+ nl)) (inr "") (inr "") (inr "c0ffee")
    csv_text (cm_text "sha256:222").

Definition no_daemon_component : scenario :=
  mkScenario (inr "<snapshot without daemon>") (inr ("c0ffee" +:+ nl)) (inr "") (inr "") (inr "c0ffee")
    csv_text (cm_text "sha256:222").

Definition no_digest_component : scenario :=
  mkScenario (inr "<snapshot without digest>") (inr ("c0ffee" +:+ nl)) (inr "") (inr "") (inr "c0ffee")
    csv_text (cm_text "sha256:222").

End Demo.

(** More scenarios: failures of the container commands, and a snapshot
    whose agent digest is written in upper case. *)
Module Cases.

Definition create_fails : Demo.scenario :=
  Demo.mkScenario (inr "<snapshot>") (Demo.failed "podman create") (inr "") (inr "")
    (inr "c0ffee") Demo.csv_text (Demo.cm_text "sha256:222").

Definition first_copy_fails : Demo.scenario :=
  Demo.mkScenario (inr "<snapshot>") (inr ("c0ffee" +:+ nl)) (Demo.failed "podman cp")
    (inr "") (inr "c0ffee") "" "".

(** Everything agrees, but the container cannot be removed. *)
Definition rm_fails : Demo.scenario :=
  Demo.mkScenario (inr "<snapshot>") (inr ("c0ffee" +:+ nl)) (inr "") (inr "")
    (Demo.failed "podman rm") Demo.csv_text (Demo.cm_text "sha256:222").

Definition snapshot_doc_upper : pyval :=
  PDict [("spec", PDict [("components", PList [
    Demo.component "bpfman-operator-ystream"
      (Demo.repo +:+ "bpfman-operator-ystream@sha256:111");
    Demo.component "bpfman-agent-ystream"
      (Demo.repo +:+ "bpfman-agent-ystream@sha256:2AB");
    Demo.component "bpfman-daemon-ystream"
      (Demo.repo +:+ "bpfman-daemon-ystream@sha256:333");
    Demo.component "bpfman-operator-bundle-ystream"
      (Demo.repo +:+ "bpfman-operator-bundle-ystream@sha256:999")])])].

Definition components_upper : gmap string string :=
  <["bpfman-operator-bundle-ystream" := "sha256:999"]>
    (<["bpfman-daemon-ystream" := "sha256:333"]>
       (<["bpfman-agent-ystream" := "sha256:2AB"]>
          (<["bpfman-operator-ystream" := "sha256:111"]> ∅))).

Definition snap_upper (r : role) : string :=
  match r with
  | Operator => "sha256:111"
  | Agent => "sha256:2AB"
  | Daemon => "sha256:333"
  end.

(** A document without the [spec] key. *)
Definition snapshot_doc_no_spec : pyval :=
  PDict [("kind", PStr "Snapshot")].

Definition json_loads (text : string) : E pyval :=
  if String.eqb text "<snapshot upper>" then inr snapshot_doc_upper
  else if String.eqb text "<snapshot without spec>" then inr snapshot_doc_no_spec
  else Demo.json_loads text.

(** The bundle names the agent digest with the same upper-case text. *)
Definition upper_digest : Demo.scenario :=
  Demo.mkScenario (inr "<snapshot upper>") (inr ("c0ffee" +:+ nl)) (inr "") (inr "")
    (inr "c0ffee") Demo.csv_text (Demo.cm_text "sha256:2AB").

Definition no_spec : Demo.scenario :=
  Demo.mkScenario (inr "<snapshot without spec>") (inr ("c0ffee" +:+ nl)) (inr "") (inr "")
    (inr "c0ffee") Demo.csv_text (Demo.cm_text "sha256:222").

End Cases.

Section Script.

(** The world outside the script, the host oracle that answers each
    call with the new world and either the text it returns (the captured
    standard output, the name of the temporary file, the text read) or
    the exception it raises, and [json.loads]. *)
Variable World : Type.
Variable host : syscall -> World -> World * E string.
Variable json_loads : string -> E pyval.

(** A computation: from a world to the world after, the trace it left
    and its result or exception. *)
Definition M (A : Type) : Type := World -> World * list event * E A.

Definition ret {A : Type} (a : A) : M A := fun w => (w, [], inr a).

Definition bind {A B : Type} (c : M A) (k : A -> M B) : M B :=
  fun w =>
    let '(w1, t1, r) := c w in
    match r with
    | inl e => (w1, t1, inl e)
    | inr a => let '(w2, t2, r2) := k a w1 in (w2, t1 ++ t2, r2)
    end.

Definition lift {A : Type} (c : E A) : M A := fun w => (w, [], c).

Definition call (c : syscall) : M string :=
  fun w => let '(w1, r) := host c w in (w1, [EvSys c], r).

Definition print (text : string) : M unit :=
  fun w => (w, [EvOut text], inr tt).

(** [try: body finally: fin].  The clause runs however the body ends;
    when it raises, its exception is the one that propagates. *)
Definition try_finally {A B : Type} (body : M A) (fin : M B) : M A :=
  fun w =>
    let '(w1, t1, r) := body w in
    let '(w2, t2, f) := fin w1 in
    (w2, t1 ++ t2,
     match f with
     | inl e => inl e
     | inr _ => r
     end).

Notation "x <- c ;; k" := (bind c (fun x => k))
  (at level 100, c at next level, right associativity).
Notation "c ;;; k" := (bind c (fun _ => k))
  (at level 100, right associativity).

(** [with tempfile.NamedTemporaryFile(mode="w+", suffix=...) as f]:
    the body gets the file's name, and the file is closed and deleted
    however the body ends. *)
Definition with_tempfile {A : Type} (suffix : string) (body : string -> M A)
  : M A :=
  name <- call (TempFileOpen suffix) ;;
  try_finally (body name) (call (TempFileClose name)).

Definition get_snapshot_components (snapshot_name namespace : string)
  : M (gmap string string * string) :=
  result <- call (SubprocessRun (oc_cmd snapshot_name namespace)) ;;
  snapshot <- lift (json_loads result) ;;
  stream <- lift (detect_stream snapshot_name) ;;
  spec <- lift (getitem snapshot "spec") ;;
  comps <- lift (getitem spec "components") ;;
  items <- lift (iter comps) ;;
  components <- lift (add_components items ∅) ;;
  ret (components, stream).

(** The body of the [try] of [extract_bundle_refs]. *)
Definition copy_manifests (container_id : string) : M (string * string) :=
  csv_content <- with_tempfile ".yaml" (fun csv_file =>
    call (SubprocessRun (cp_csv_cmd container_id csv_file)) ;;;
    call (ReadFile csv_file)) ;;
  cm_content <- with_tempfile ".yaml" (fun cm_file =>
    call (SubprocessRun (cp_cm_cmd container_id cm_file)) ;;;
    call (ReadFile cm_file)) ;;
  ret (csv_content, cm_content).

Definition extract_bundle_refs (bundle_sha stream : string) : M refs :=
  result <- call (SubprocessRun (create_cmd bundle_sha stream)) ;;
  let container_id := PyStr.strip result in
  contents <- try_finally (copy_manifests container_id)
                (call (SubprocessRun (rm_cmd container_id))) ;;
  lift (parse_refs (fst contents) (snd contents)).

(** One of the three comparison blocks of [validate_snapshot]; [valid]
    is the flag as the block finds it, the result is the flag after. *)
Definition compare_role (r : role) (rf : refs)
           (components : gmap string string) (stream : string) (valid : bool)
  : M bool :=
  snap <- lift (dict_lookup components (component_key r stream)) ;;
  if differs (ref_of rf r) snap then
    print (mismatch_line r) ;;;
    print ("   Bundle wants:  " +:+ PyStr.fmt (ref_of rf r)) ;;;
    snap' <- lift (dict_lookup components (component_key r stream)) ;;
    print ("   Snapshot has:  " +:+ snap') ;;;
    ret false
  else
    print (match_line r) ;;;
    ret valid.

Definition validate_snapshot (snapshot_name namespace : string) : M Z :=
  print ("=== Validating Snapshot: " +:+ snapshot_name +:+ " ===" +:+ nl) ;;;
  cs <- get_snapshot_components snapshot_name namespace ;;
  let components := fst cs in
  let stream := snd cs in
  print "Snapshot contains:" ;;;
  op <- lift (dict_lookup components (component_key Operator stream)) ;;
  print ("  Operator: " +:+ op) ;;;
  ag <- lift (dict_lookup components (component_key Agent stream)) ;;
  print ("  Agent:    " +:+ ag) ;;;
  da <- lift (dict_lookup components (component_key Daemon stream)) ;;
  print ("  Daemon:   " +:+ da) ;;;
  bu <- lift (dict_lookup components (bundle_key stream)) ;;
  print ("  Bundle:   " +:+ bu) ;;;
  print "" ;;;
  bundle_sha <- lift (dict_lookup components (bundle_key stream)) ;;
  rf <- extract_bundle_refs bundle_sha stream ;;
  print "Bundle references:" ;;;
  print ("  CSV Operator:     " +:+ PyStr.fmt (operator rf)) ;;;
  print ("  ConfigMap Agent:  " +:+ PyStr.fmt (agent rf)) ;;;
  print ("  ConfigMap Daemon: " +:+ PyStr.fmt (daemon rf)) ;;;
  print "" ;;;
  valid <- compare_role Operator rf components stream true ;;
  valid <- compare_role Agent rf components stream valid ;;
  valid <- compare_role Daemon rf components stream valid ;;
  print "" ;;;
  if valid : bool then
    print "✅ VALID: This snapshot is self-consistent and safe to release" ;;;
    ret 0
  else
    print "❌ INVALID: This snapshot has mismatches" ;;;
    print "   - Will fail Enterprise Contract if operator mismatched" ;;;
    print "   - Will fail in production if agent/daemon mismatched" ;;;
    ret 1.

(** [main] after [parse_args]: the exit status of the process. *)
Definition main (snapshot namespace : string)
  : World -> World * list event * Z :=
  fun w =>
    let '(w1, t, r) := validate_snapshot snapshot namespace w in
    match r with
    | inr rc => (w1, t, rc)
    | inl e =>
        if is_CalledProcessError e
        then (w1, t ++ [EvErr (nl +:+ "Error: " +:+ str_exn e)], 2)
        else (w1, t ++ [EvErr (nl +:+ "Unexpected error: " +:+ str_exn e)], 2)
    end.

(** *** Vocabulary of the statements *)

(** The pure part of [get_snapshot_components], from the text the
    query printed. *)
Definition read_snapshot (snapshot_name result : string)
  : E (gmap string string * string) :=
  (snapshot <~ json_loads result ;;
   stream <~ detect_stream snapshot_name ;;
   spec <~ getitem snapshot "spec" ;;
   comps <~ getitem spec "components" ;;
   items <~ iter comps ;;
   components <~ add_components items ∅ ;;
   inr (components, stream))%py.

(** The items the loop of [get_snapshot_components] visits. *)
Definition snapshot_items (snapshot : pyval) : E (list pyval) :=
  (spec <~ getitem snapshot "spec" ;;
   comps <~ getitem spec "components" ;;
   iter comps)%py.

(** The four keys [validate_snapshot] looks up. *)
Definition expected_keys (stream : string) : list string :=
  [component_key Operator stream; component_key Agent stream;
   component_key Daemon stream; bundle_key stream].

(** A computation that prints nothing: its trace has host calls only. *)
Definition is_sys (e : event) : Prop := exists c, e = EvSys c.

Definition quiet {A : Type} (c : M A) : Prop :=
  forall w w1 t r, c w = (w1, t, r) -> Forall is_sys t.

(** The lines of the report. *)
Definition head_lines (snapshot_name : string) : list event :=
  [EvOut ("=== Validating Snapshot: " +:+ snapshot_name +:+ " ===" +:+ nl)].

Definition snapshot_lines (op ag da bu : string) : list event :=
  [EvOut "Snapshot contains:";
   EvOut ("  Operator: " +:+ op);
   EvOut ("  Agent:    " +:+ ag);
   EvOut ("  Daemon:   " +:+ da);
   EvOut ("  Bundle:   " +:+ bu);
   EvOut ""].

Definition bundle_lines (rf : refs) : list event :=
  [EvOut "Bundle references:";
   EvOut ("  CSV Operator:     " +:+ PyStr.fmt (operator rf));
   EvOut ("  ConfigMap Agent:  " +:+ PyStr.fmt (agent rf));
   EvOut ("  ConfigMap Daemon: " +:+ PyStr.fmt (daemon rf));
   EvOut ""].

Definition role_lines (r : role) (rf : refs) (snap : string) : list event :=
  if differs (ref_of rf r) snap then
    [EvOut (mismatch_line r);
     EvOut ("   Bundle wants:  " +:+ PyStr.fmt (ref_of rf r));
     EvOut ("   Snapshot has:  " +:+ snap)]
  else [EvOut (match_line r)].

Definition verdict_lines (valid : bool) : list event :=
  if valid then
    [EvOut "";
     EvOut "✅ VALID: This snapshot is self-consistent and safe to release"]
  else
    [EvOut "";
     EvOut "❌ INVALID: This snapshot has mismatches";
     EvOut "   - Will fail Enterprise Contract if operator mismatched";
     EvOut "   - Will fail in production if agent/daemon mismatched"].

(** No comparison found a difference. *)
Definition all_match (rf : refs) (snap : role -> string) : bool :=
  negb (differs (operator rf) (snap Operator))
  && negb (differs (agent rf) (snap Agent))
  && negb (differs (daemon rf) (snap Daemon)).

(** The whole report of a run whose two readers succeeded. *)
Definition report (snapshot_name : string) (t1 t2 : list event)
           (snap : role -> string) (bu : string) (rf : refs) : list event :=
  head_lines snapshot_name ++ t1
    ++ snapshot_lines (snap Operator) (snap Agent) (snap Daemon) bu
    ++ t2 ++ bundle_lines rf
    ++ role_lines Operator rf (snap Operator)
    ++ role_lines Agent rf (snap Agent)
    ++ role_lines Daemon rf (snap Daemon)
    ++ verdict_lines (all_match rf snap).

(** The manifest a role's digest is read from, and its pattern. *)
Definition pattern_of (r : role) : Re.regex :=
  match r with
  | Operator => operator_re
  | Agent => agent_re
  | Daemon => daemon_re
  end.

Definition manifest_of (r : role) (csv_content cm_content : string) : string :=
  match r with
  | Operator => csv_content
  | Agent | Daemon => cm_content
  end.

(** [m.group(1) if m else None] when the pattern has a group. *)
Definition first_group (m : option (list string)) : option string :=
  match m with
  | Some (g :: _) => Some g
  | _ => None
  end.

(** The reading of "the stream error is raised before any command is
    run": the run raises that error and its trace has no subprocess. *)
Definition aborts_before_any_command (snapshot_name namespace : string)
           (w : World) : Prop :=
  snd (validate_snapshot snapshot_name namespace w) =
    inl (ValueError ("Cannot detect stream from snapshot name: " +:+ snapshot_name))
  /\ forall cmd,
       ~ In (EvSys (SubprocessRun cmd))
            (snd (fst (validate_snapshot snapshot_name namespace w))).

(** The texts a pattern matches, each with the groups it captures. *)
Fixpoint matches (r : Re.regex) (text : string) (gs : list string) : Prop :=
  match r with
  | Re.Lit p => text = p /\ gs = []
  | Re.Star cls => PyStr.all cls text = true /\ gs = []
  | Re.Plus cls => PyStr.all cls text = true /\ text <> EmptyString /\ gs = []
  | Re.Cat r1 r2 =>
      exists t1 t2 g1 g2,
        text = t1 +:+ t2 /\ gs = g1 ++ g2 /\ matches r1 t1 g1 /\ matches r2 t2 g2
  | Re.Group r1 => exists g, matches r1 text g /\ gs = g ++ [text]
  end.

(** The text that introduces the digest of a role in its manifest. *)
Definition key_of (r : role) : string :=
  match r with
  | Operator => "registry.redhat.io/bpfman/bpfman-rhel9-operator"
  | Agent => "bpfman.agent.image:"
  | Daemon => "bpfman.image:"
  end.

(** What may stand between the key and the [@]: nothing for the operator,
    anything but a line feed for the agent and the daemon. *)
Definition gap_ok (r : role) (gap : string) : Prop :=
  match r with
  | Operator => gap = EmptyString
  | Agent | Daemon => PyStr.all Re.dot gap = true
  end.

(** [sha256:] followed by one or more lower-case hexadecimal digits. *)
Definition sha256_digest (d : string) : Prop :=
  exists hex,
    d = "sha256:" +:+ hex /\ hex <> EmptyString /\ PyStr.all Re.hex_lower hex = true.

Definition valid_line : string :=
  "✅ VALID: This snapshot is self-consistent and safe to release".

Definition invalid_line : string :=
  "❌ INVALID: This snapshot has mismatches".

(** An image reference [repo@sha256:<hex>], and a component of the
    snapshot that has a [str] name and such a reference as its image. *)
Definition digest_reference (image : string) : Prop :=
  exists repo hex,
    image = repo +:+ "@" +:+ "sha256:" +:+ hex /\
    PyStr.lacks "@" repo = true /\ PyStr.all Re.hex_lower hex = true.

Definition digest_component (comp : pyval) : Prop :=
  exists name image,
    getitem comp "name" = inr (PStr name) /\
    getitem comp "containerImage" = inr (PStr image) /\
    digest_reference image.

(** *** Strings *)

Lemma append_cons (c : ascii) (a b : string) :
  String c a +:+ b = String c (a +:+ b).
Proof. reflexivity. Qed.

Lemma append_nil (b : string) : EmptyString +:+ b = b.
Proof. reflexivity. Qed.

Lemma startswith_spec (p s : string) :
  PyStr.startswith p s = true <-> exists post, s = p +:+ post.
Proof.
  revert s. induction p as [|a p IH]; intros s; simpl.
  - split; [intros _; exists s; reflexivity | reflexivity].
  - destruct s as [|b s]; simpl.
    + split; [discriminate | intros [post H]; discriminate].
    + destruct (Ascii.eqb_spec a b) as [->|Hne].
      * rewrite IH. split; intros [post H]; exists post;
          rewrite append_cons in *; congruence.
      * split; [discriminate | intros [post H]; rewrite append_cons in H; congruence].
Qed.

Lemma str_in_unfold (sub s : string) :
  PyStr.str_in sub s =
  if PyStr.startswith sub s then true
  else match s with
       | EmptyString => false
       | String _ s' => PyStr.str_in sub s'
       end.
Proof. destruct s; reflexivity. Qed.

Lemma str_in_spec (sub s : string) :
  PyStr.str_in sub s = true <-> PyStr.Contains sub s.
Proof.
  unfold PyStr.Contains. split.
  - induction s as [|c s IH]; rewrite str_in_unfold;
      destruct (PyStr.startswith sub _) eqn:Hs.
    + intros _. apply startswith_spec in Hs as [post ->].
      exists EmptyString, post. reflexivity.
    + discriminate.
    + intros _. apply startswith_spec in Hs as [post ->].
      exists EmptyString, post. reflexivity.
    + intros H. destruct (IH H) as (pre & post & ->).
      exists (String c pre), post. reflexivity.
  - intros (pre & post & ->).
    induction pre as [|c pre IH]; rewrite ?append_nil, ?append_cons.
    + rewrite str_in_unfold.
      replace (PyStr.startswith sub (sub +:+ post)) with true; [reflexivity|].
      symmetry. apply startswith_spec. exists post. reflexivity.
    + rewrite str_in_unfold. rewrite IH.
      destruct (PyStr.startswith sub _); reflexivity.
Qed.

Lemma str_in_false (sub s : string) :
  PyStr.str_in sub s = false <-> ~ PyStr.Contains sub s.
Proof.
  rewrite <- str_in_spec. destruct (PyStr.str_in sub s); split; intros H;
    try reflexivity; try discriminate; try (intros H'; discriminate).
  exfalso. apply H. reflexivity.
Qed.

Lemma split_aux_lacks (sep : ascii) (s : string) :
  PyStr.lacks sep s = true -> PyStr.split_aux sep s = (s, []).
Proof.
  induction s as [|c s IH]; simpl; [reflexivity|].
  destruct (Ascii.eqb c sep); [discriminate|].
  intros H. rewrite (IH H). reflexivity.
Qed.

Lemma split_lacks (sep : ascii) (s : string) :
  PyStr.lacks sep s = true -> PyStr.split sep s = [s].
Proof. intros H. unfold PyStr.split. rewrite split_aux_lacks; auto. Qed.

Lemma split_aux_one (sep : ascii) (a b : string) :
  PyStr.lacks sep a = true ->
  PyStr.split_aux sep (a +:+ String sep b) =
  (a, fst (PyStr.split_aux sep b) :: snd (PyStr.split_aux sep b)).
Proof.
  induction a as [|c a IH]; rewrite ?append_nil, ?append_cons; simpl.
  - intros _. rewrite Ascii.eqb_refl. destruct (PyStr.split_aux sep b); reflexivity.
  - destruct (Ascii.eqb c sep); [discriminate|].
    intros H. rewrite (IH H). reflexivity.
Qed.

Lemma after_first_one (sep : ascii) (a b : string) :
  PyStr.lacks sep a = true ->
  PyStr.after_first sep (a +:+ String sep b) = Some b.
Proof.
  induction a as [|c a IH]; rewrite ?append_nil, ?append_cons; simpl.
  - intros _. rewrite Ascii.eqb_refl. reflexivity.
  - destruct (Ascii.eqb c sep); [discriminate | exact IH].
Qed.

Lemma lacks_append (c : ascii) (a b : string) :
  PyStr.lacks c (a +:+ b) = PyStr.lacks c a && PyStr.lacks c b.
Proof.
  induction a as [|x a IH]; rewrite ?append_nil, ?append_cons; simpl; [reflexivity|].
  destruct (Ascii.eqb x c); [reflexivity | exact IH].
Qed.

Lemma all_hex_lacks_at (s : string) :
  PyStr.all Re.hex_lower s = true -> PyStr.lacks "@" s = true.
Proof.
  induction s as [|c s IH]; simpl; [reflexivity|].
  destruct (Re.hex_lower c) eqn:Hc; [|discriminate].
  intros H. destruct (Ascii.eqb_spec c "@"%char) as [->|_]; [discriminate Hc | auto].
Qed.

(** *** The stream detector *)

(** C6: a name that contains "ystream" and not "zstream" is detected
    as ystream, one that contains "zstream" and not "ystream" as
    zstream, and one that contains neither raises the ValueError. *)
Theorem detect_stream_spec (snapshot_name : string) :
  (PyStr.Contains "ystream" snapshot_name ->
   ~ PyStr.Contains "zstream" snapshot_name ->
   detect_stream snapshot_name = inr "ystream") /\
  (PyStr.Contains "zstream" snapshot_name ->
   ~ PyStr.Contains "ystream" snapshot_name ->
   detect_stream snapshot_name = inr "zstream") /\
  (~ PyStr.Contains "ystream" snapshot_name ->
   ~ PyStr.Contains "zstream" snapshot_name ->
   detect_stream snapshot_name =
   inl (ValueError ("Cannot detect stream from snapshot name: " +:+ snapshot_name))).
Proof.
  unfold detect_stream. repeat split.
  - intros Hy _. apply str_in_spec in Hy. rewrite Hy. reflexivity.
  - intros Hz Hy. apply str_in_spec in Hz. apply str_in_false in Hy.
    rewrite Hy, Hz. reflexivity.
  - intros Hy Hz. apply str_in_false in Hy. apply str_in_false in Hz.
    rewrite Hy, Hz. reflexivity.
Qed.

(** C9: a name that contains both markers is detected as ystream: the
    ystream test comes first. *)
Theorem detect_stream_both (snapshot_name : string) :
  PyStr.Contains "ystream" snapshot_name ->
  PyStr.Contains "zstream" snapshot_name ->
  detect_stream snapshot_name = inr "ystream".
Proof.
  intros Hy _. unfold detect_stream.
  apply str_in_spec in Hy. rewrite Hy. reflexivity.
Qed.

(** *** The digest of a component *)

Lemma image_sha_one_at (repo digest : string) :
  PyStr.lacks "@" repo = true ->
  PyStr.lacks "@" digest = true ->
  image_sha (PStr (repo +:+ "@" +:+ digest)) = inr digest.
Proof.
  intros Hr Hd. unfold image_sha, py_split, PyStr.split. simpl ebind.
  change ("@" +:+ digest) with (String "@" digest).
  rewrite split_aux_one by exact Hr.
  rewrite split_aux_lacks by exact Hd. reflexivity.
Qed.

(** One turn of the loop on a component that has just the two fields:
    the text after the first [@] goes under the component's name. *)
Lemma component_digest_after_at
        (components : gmap string string) (name repo hex : string) :
  PyStr.lacks "@" repo = true ->
  PyStr.all Re.hex_lower hex = true ->
  let image := repo +:+ "@" +:+ "sha256:" +:+ hex in
  exists digest,
    PyStr.after_first "@" image = Some digest /\
    digest = "sha256:" +:+ hex /\
    image_sha (PStr image) = inr digest /\
    add_component components
      (PDict [("name", PStr name); ("containerImage", PStr image)])
    = inr (<[name := digest]> components).
Proof.
  intros Hr Hh image. exists ("sha256:" +:+ hex).
  assert (Hd : PyStr.lacks "@" ("sha256:" +:+ hex) = true).
  { rewrite lacks_append, (all_hex_lacks_at _ Hh). reflexivity. }
  assert (Hs : image_sha (PStr image) = inr ("sha256:" +:+ hex))
    by (apply image_sha_one_at; assumption).
  repeat split.
  - apply (after_first_one "@" repo ("sha256:" +:+ hex) Hr).
  - exact Hs.
  - unfold add_component. cbn [getitem dict_get String.eqb Ascii.eqb Bool.eqb ebind].
    rewrite Hs. reflexivity.
Qed.

(** *** Running computations *)

Lemma differs_spec (a : option string) (b : string) :
  differs a b = false <-> a = Some b.
Proof.
  destruct a as [x|]; simpl.
  - destruct (String.eqb_spec x b) as [->|Hne]; simpl; split; congruence.
  - split; discriminate.
Qed.

Lemma differs_true (a : option string) (b : string) :
  differs a b = true <-> a <> Some b.
Proof.
  rewrite <- differs_spec. destruct (differs a b); split; congruence.
Qed.

Lemma get_snapshot_components_run (snapshot_name namespace : string) (w : World) :
  get_snapshot_components snapshot_name namespace w =
  (fst (host (SubprocessRun (oc_cmd snapshot_name namespace)) w),
   [EvSys (SubprocessRun (oc_cmd snapshot_name namespace))],
   ebind (snd (host (SubprocessRun (oc_cmd snapshot_name namespace)) w))
         (read_snapshot snapshot_name)).
Proof.
  unfold get_snapshot_components, read_snapshot, bind, call, lift, ret.
  destruct (host _ w) as [w1 [e|out]]; simpl; [reflexivity|].
  destruct (json_loads out) as [e|snapshot]; simpl; [reflexivity|].
  destruct (detect_stream snapshot_name) as [e|stream]; simpl; [reflexivity|].
  destruct (getitem snapshot "spec") as [e|spec]; simpl; [reflexivity|].
  destruct (getitem spec "components") as [e|comps]; simpl; [reflexivity|].
  destruct (iter comps) as [e|items]; simpl; [reflexivity|].
  destruct (add_components items ∅) as [e|components]; reflexivity.
Qed.

Lemma compare_role_run (r : role) (rf : refs) (components : gmap string string)
      (stream snap : string) (valid : bool) (w : World) :
  components !! component_key r stream = Some snap ->
  compare_role r rf components stream valid w =
  (w, role_lines r rf snap,
   inr (if differs (ref_of rf r) snap then false else valid)).
Proof.
  intros H. unfold compare_role, role_lines, bind, lift, dict_lookup, print, ret.
  rewrite H. destruct (differs (ref_of rf r) snap); reflexivity.
Qed.

(** A run whose two readers succeed and whose snapshot has the four
    keys prints the whole report and returns 0 or 1. *)
Lemma validate_snapshot_run (snapshot_name namespace : string) (w w1 w2 : World)
      (t1 t2 : list event) (components : gmap string string)
      (stream bu : string) (snap : role -> string) (rf : refs) :
  get_snapshot_components snapshot_name namespace w = (w1, t1, inr (components, stream)) ->
  (forall r, components !! component_key r stream = Some (snap r)) ->
  components !! bundle_key stream = Some bu ->
  extract_bundle_refs bu stream w1 = (w2, t2, inr rf) ->
  validate_snapshot snapshot_name namespace w =
  (w2, report snapshot_name t1 t2 snap bu rf,
   inr (if all_match rf snap then 0 else 1)).
Proof.
  intros Hget Hsnap Hbu Hext.
  unfold validate_snapshot, report.
  cbv [bind print lift ret dict_lookup fst snd].
  rewrite Hget. cbv [bind print lift ret dict_lookup fst snd].
  rewrite !Hsnap, Hbu, Hext.
  rewrite (compare_role_run Operator rf components stream (snap Operator)) by apply Hsnap.
  rewrite (compare_role_run Agent rf components stream (snap Agent)) by apply Hsnap.
  rewrite (compare_role_run Daemon rf components stream (snap Daemon)) by apply Hsnap.
  unfold all_match, verdict_lines, head_lines, snapshot_lines, bundle_lines.
  cbn [ref_of].
  destruct (differs (operator rf) (snap Operator)),
           (differs (agent rf) (snap Agent)),
           (differs (daemon rf) (snap Daemon));
    cbn [negb andb]; rewrite ?app_nil_l, ?app_nil_r, <- ?app_assoc;
    cbn [app]; rewrite <- ?app_assoc; reflexivity.
Qed.

(** *** Computations that print nothing *)

Lemma quiet_ret {A : Type} (a : A) : quiet (ret a).
Proof. intros w w1 t r H. injection H as <- <- <-. constructor. Qed.

Lemma quiet_lift {A : Type} (c : E A) : quiet (lift c).
Proof. intros w w1 t r H. injection H as <- <- <-. constructor. Qed.

Lemma quiet_call (c : syscall) : quiet (call c).
Proof.
  intros w w1 t r H. unfold call in H. destruct (host c w) as [w' r'].
  injection H as <- <- <-. repeat constructor. exists c. reflexivity.
Qed.

Lemma quiet_bind {A B : Type} (c : M A) (k : A -> M B) :
  quiet c -> (forall a, quiet (k a)) -> quiet (bind c k).
Proof.
  intros Hc Hk w w2 t r H. unfold bind in H.
  destruct (c w) as [[wa ta] [e|a]] eqn:Hcw.
  - injection H as <- <- <-. exact (Hc _ _ _ _ Hcw).
  - destruct (k a wa) as [[wb tb] rb] eqn:Hka.
    injection H as <- <- <-. apply Forall_app. split.
    + exact (Hc _ _ _ _ Hcw).
    + exact (Hk _ _ _ _ _ Hka).
Qed.

Lemma quiet_try_finally {A B : Type} (body : M A) (fin : M B) :
  quiet body -> quiet fin -> quiet (try_finally body fin).
Proof.
  intros Hb Hf w w2 t r H. unfold try_finally in H.
  destruct (body w) as [[wa ta] ra] eqn:Hbw.
  destruct (fin wa) as [[wb tb] rb] eqn:Hfw.
  injection H as <- <- <-. apply Forall_app. split.
  - exact (Hb _ _ _ _ Hbw).
  - exact (Hf _ _ _ _ Hfw).
Qed.

Lemma quiet_with_tempfile {A : Type} (suffix : string) (body : string -> M A) :
  (forall name, quiet (body name)) -> quiet (with_tempfile suffix body).
Proof.
  intros Hb. unfold with_tempfile. apply quiet_bind; [apply quiet_call|].
  intros name. apply quiet_try_finally; [apply Hb | apply quiet_call].
Qed.

Lemma quiet_copy_manifests (container_id : string) :
  quiet (copy_manifests container_id).
Proof.
  unfold copy_manifests.
  apply quiet_bind.
  { apply quiet_with_tempfile. intros name.
    apply quiet_bind; [apply quiet_call | intros _; apply quiet_call]. }
  intros csv. apply quiet_bind.
  { apply quiet_with_tempfile. intros name.
    apply quiet_bind; [apply quiet_call | intros _; apply quiet_call]. }
  intros cm. apply quiet_ret.
Qed.

Lemma quiet_extract_bundle_refs (bundle_sha stream : string) :
  quiet (extract_bundle_refs bundle_sha stream).
Proof.
  unfold extract_bundle_refs. apply quiet_bind; [apply quiet_call|].
  intros result. apply quiet_bind.
  - apply quiet_try_finally; [apply quiet_copy_manifests | apply quiet_call].
  - intros contents. apply quiet_lift.
Qed.

Lemma quiet_get_snapshot_components (snapshot_name namespace : string) :
  quiet (get_snapshot_components snapshot_name namespace).
Proof.
  intros w w1 t r H. rewrite get_snapshot_components_run in H.
  injection H as <- <- <-. repeat constructor. eexists. reflexivity.
Qed.

Lemma quiet_no_output (t : list event) (text : string) :
  Forall is_sys t -> ~ In (EvOut text) t.
Proof.
  intros H Hin. rewrite Forall_forall in H.
  apply list_elem_of_In in Hin.
  destruct (H _ Hin) as [c Hc]. discriminate.
Qed.

(** *** Which lines the report holds *)

Ltac expose_lines :=
  cbv [String.append mismatch_line match_line PyStr.fmt] in *.

Lemma mismatch_in_role_lines (r r' : role) (rf : refs) (snap : string) :
  In (EvOut (mismatch_line r)) (role_lines r' rf snap) <->
  r = r' /\ differs (ref_of rf r') snap = true.
Proof.
  unfold role_lines. destruct (differs (ref_of rf r') snap); simpl In.
  - split.
    + intros [H|[H|[H|[]]]]; destruct r, r'; expose_lines;
        try discriminate H; split; reflexivity.
    + intros [-> _]. left. reflexivity.
  - split.
    + intros [H|[]]. destruct r, r'; expose_lines; discriminate H.
    + intros [_ H]. discriminate H.
Qed.

Lemma match_in_role_lines (r r' : role) (rf : refs) (snap : string) :
  In (EvOut (match_line r)) (role_lines r' rf snap) <->
  r = r' /\ differs (ref_of rf r') snap = false.
Proof.
  unfold role_lines. destruct (differs (ref_of rf r') snap); simpl In.
  - split.
    + intros [H|[H|[H|[]]]]; destruct r, r'; expose_lines; discriminate H.
    + intros [_ H]. discriminate H.
  - split.
    + intros [H|[]]. destruct r, r'; expose_lines;
        try discriminate H; split; reflexivity.
    + intros [-> _]. left. reflexivity.
Qed.

Lemma role_line_not_elsewhere (r : role) (snapshot_name op ag da bu : string)
      (rf : refs) (valid : bool) (line : string) :
  line = mismatch_line r \/ line = match_line r ->
  ~ In (EvOut line)
      (head_lines snapshot_name ++ snapshot_lines op ag da bu
         ++ bundle_lines rf ++ verdict_lines valid).
Proof.
  intros Hl Hin.
  unfold head_lines, snapshot_lines, bundle_lines, verdict_lines in Hin.
  destruct valid; cbn [app In] in Hin;
    destruct Hl as [-> | ->]; destruct r; expose_lines;
    repeat (destruct Hin as [Hin|Hin]; [discriminate Hin|]); exact Hin.
Qed.

Lemma mismatch_in_report (r : role) (snapshot_name : string) (t1 t2 : list event)
      (snap : role -> string) (bu : string) (rf : refs) :
  Forall is_sys t1 -> Forall is_sys t2 ->
  In (EvOut (mismatch_line r)) (report snapshot_name t1 t2 snap bu rf) <->
  differs (ref_of rf r) (snap r) = true.
Proof.
  intros H1 H2. unfold report.
  pose proof (role_line_not_elsewhere r snapshot_name (snap Operator) (snap Agent)
                (snap Daemon) bu rf (all_match rf snap) _ (or_introl eq_refl)) as Hno.
  pose proof (quiet_no_output t1 (mismatch_line r) H1) as Hn1.
  pose proof (quiet_no_output t2 (mismatch_line r) H2) as Hn2.
  rewrite !in_app_iff in Hno. rewrite !in_app_iff, !mismatch_in_role_lines.
  split.
  - intros H. destruct r; intuition congruence.
  - intros H. destruct r; intuition.
Qed.

Lemma match_in_report (r : role) (snapshot_name : string) (t1 t2 : list event)
      (snap : role -> string) (bu : string) (rf : refs) :
  Forall is_sys t1 -> Forall is_sys t2 ->
  In (EvOut (match_line r)) (report snapshot_name t1 t2 snap bu rf) <->
  differs (ref_of rf r) (snap r) = false.
Proof.
  intros H1 H2. unfold report.
  pose proof (role_line_not_elsewhere r snapshot_name (snap Operator) (snap Agent)
                (snap Daemon) bu rf (all_match rf snap) _ (or_intror eq_refl)) as Hno.
  pose proof (quiet_no_output t1 (match_line r) H1) as Hn1.
  pose proof (quiet_no_output t2 (match_line r) H2) as Hn2.
  rewrite !in_app_iff in Hno. rewrite !in_app_iff, !match_in_role_lines.
  split.
  - intros H. destruct r; intuition congruence.
  - intros H. destruct r; intuition.
Qed.

Lemma all_match_spec (rf : refs) (snap : role -> string) :
  all_match rf snap = true <->
  operator rf = Some (snap Operator) /\ agent rf = Some (snap Agent)
  /\ daemon rf = Some (snap Daemon).
Proof.
  unfold all_match. rewrite !andb_true_iff, !negb_true_iff, !differs_spec. tauto.
Qed.

(** *** The validator *)

(** C1: a run that reaches the comparison returns 0 exactly when the
    three extracted digests equal the snapshot's digests of the operator,
    agent and daemon components, and 1 exactly when one of them
    differs. *)
Theorem validate_snapshot_valid_iff
        (snapshot_name namespace : string) (w w1 w2 : World)
        (t1 t2 : list event) (components : gmap string string)
        (stream bu : string) (snap : role -> string) (rf : refs) :
  get_snapshot_components snapshot_name namespace w = (w1, t1, inr (components, stream)) ->
  (forall r, components !! component_key r stream = Some (snap r)) ->
  components !! bundle_key stream = Some bu ->
  extract_bundle_refs bu stream w1 = (w2, t2, inr rf) ->
  exists t rc,
    validate_snapshot snapshot_name namespace w = (w2, t, inr rc) /\
    (rc = 0 <->
     operator rf = Some (snap Operator) /\ agent rf = Some (snap Agent)
     /\ daemon rf = Some (snap Daemon)) /\
    (rc = 1 <->
     ~ (operator rf = Some (snap Operator) /\ agent rf = Some (snap Agent)
        /\ daemon rf = Some (snap Daemon))).
Proof.
  intros Hget Hsnap Hbu Hext.
  exists (report snapshot_name t1 t2 snap bu rf),
         (if all_match rf snap then 0 else 1).
  split; [eapply validate_snapshot_run; eassumption|].
  rewrite <- all_match_spec.
  destruct (all_match rf snap); split; split; intros H;
    try reflexivity; try discriminate; congruence.
Qed.

(** C2: when exactly one role's digest differs, the run returns 1, the
    mismatch line is printed for that role and for no other, and the
    other two roles get their match line. *)
Theorem validate_snapshot_one_mismatch
        (snapshot_name namespace : string) (w w1 w2 : World)
        (t1 t2 : list event) (components : gmap string string)
        (stream bu : string) (snap : role -> string) (rf : refs) (r0 : role) :
  get_snapshot_components snapshot_name namespace w = (w1, t1, inr (components, stream)) ->
  (forall r, components !! component_key r stream = Some (snap r)) ->
  components !! bundle_key stream = Some bu ->
  extract_bundle_refs bu stream w1 = (w2, t2, inr rf) ->
  ref_of rf r0 <> Some (snap r0) ->
  (forall r, r <> r0 -> ref_of rf r = Some (snap r)) ->
  exists t,
    validate_snapshot snapshot_name namespace w = (w2, t, inr 1) /\
    forall r,
      (In (EvOut (mismatch_line r)) t <-> r = r0) /\
      (In (EvOut (match_line r)) t <-> r <> r0).
Proof.
  intros Hget Hsnap Hbu Hext Hdiff Hsame.
  exists (report snapshot_name t1 t2 snap bu rf).
  assert (Hrc : all_match rf snap = false).
  { destruct (all_match rf snap) eqn:Hm; [|reflexivity].
    apply all_match_spec in Hm. destruct r0; cbn [ref_of] in Hdiff; tauto. }
  split.
  { rewrite (validate_snapshot_run _ _ _ _ _ _ _ _ _ _ _ _ Hget Hsnap Hbu Hext).
    rewrite Hrc. reflexivity. }
  pose proof (quiet_get_snapshot_components _ _ _ _ _ _ Hget) as Hq1.
  pose proof (quiet_extract_bundle_refs _ _ _ _ _ _ Hext) as Hq2.
  intros r. rewrite mismatch_in_report, match_in_report by assumption.
  rewrite differs_true, differs_spec.
  assert (Hdec : r = r0 \/ r <> r0) by (destruct r, r0; auto; right; discriminate).
  destruct Hdec as [-> | Hne].
  - split; split; intros H; try reflexivity; try assumption; congruence.
  - split; split; intros H; try assumption; try (apply Hsame; assumption).
    + exfalso. apply H. apply Hsame. assumption.
    + congruence.
Qed.

(** *** The patterns *)

Lemma star_some {A : Type} (cls : ascii -> bool) (s : string)
      (k : string -> option A) (res : A) :
  Re.star cls s k = Some res -> exists rest, k rest = Some res.
Proof.
  induction s as [|c s IH]; simpl.
  - intros H. exists EmptyString. exact H.
  - destruct (cls c).
    + destruct (Re.star cls s k) as [m|] eqn:Hs.
      * intros H. apply IH. congruence.
      * intros H. exists (String c s). exact H.
    + intros H. exists (String c s). exact H.
Qed.

Lemma plus_some {A : Type} (cls : ascii -> bool) (s : string)
      (k : string -> option A) (res : A) :
  Re.plus cls s k = Some res -> exists rest, k rest = Some res.
Proof.
  destruct s as [|c s]; simpl; [discriminate|].
  destruct (cls c); [apply star_some | discriminate].
Qed.

(** A match closes as many groups as the pattern has. *)
Lemma run_groups (r : Re.regex) :
  forall s caps k res,
    Re.run r s caps k = Some res ->
    exists rest caps',
      k rest caps' = Some res /\
      length caps' = (length caps + Re.ngroups r)%nat.
Proof.
  induction r as [p|cls|cls|r1 IH1 r2 IH2|r1 IH1]; intros s caps k res H; simpl in H.
  - destruct (Re.strip_lit p s) as [rest|]; [|discriminate].
    exists rest, caps. split; [exact H | simpl; lia].
  - apply star_some in H as [rest H]. exists rest, caps. split; [exact H | simpl; lia].
  - apply plus_some in H as [rest H]. exists rest, caps. split; [exact H | simpl; lia].
  - apply IH1 in H as (s1 & caps1 & H & Hl1).
    apply IH2 in H as (s2 & caps2 & H & Hl2).
    exists s2, caps2. split; [exact H | simpl; lia].
  - apply IH1 in H as (s1 & caps1 & H & Hl1).
    exists s1, (caps1 ++ [Re.consumed s s1]). split; [exact H|].
    rewrite length_app. simpl. lia.
Qed.

Lemma search_groups (r : Re.regex) (s : string) (caps : list string) :
  Re.search r s = Some caps -> length caps = Re.ngroups r.
Proof.
  induction s as [|c s IH]; simpl; unfold Re.match_here;
    destruct (Re.run r _ [] _) as [m|] eqn:Hm; intros H; try discriminate.
  - injection H as ->. apply run_groups in Hm as (? & caps' & Hk & Hl).
    injection Hk as ->. exact Hl.
  - injection H as ->. apply run_groups in Hm as (? & caps' & Hk & Hl).
    injection Hk as ->. exact Hl.
  - apply IH. exact H.
Qed.

Lemma group1_total (r : Re.regex) (s : string) :
  Re.ngroups r = 1%nat ->
  group1_or_None (Re.search r s) = inr (first_group (Re.search r s)).
Proof.
  intros Hn. destruct (Re.search r s) as [caps|] eqn:Hs; [|reflexivity].
  apply search_groups in Hs. rewrite Hn in Hs.
  destruct caps as [|g caps]; [discriminate | reflexivity].
Qed.

(** The parsing part of the extractor never raises. *)
Lemma parse_refs_total (csv_content cm_content : string) :
  parse_refs csv_content cm_content =
  inr (mkRefs (first_group (Re.search operator_re csv_content))
              (first_group (Re.search agent_re cm_content))
              (first_group (Re.search daemon_re cm_content))).
Proof.
  unfold parse_refs. rewrite !group1_total by reflexivity. reflexivity.
Qed.

(** *** The bundle reference extractor *)

Lemma extract_bundle_refs_run (bundle_sha stream : string) (w w1 w2 w3 : World)
      (out : string) (t : list event) (r : E (string * string)) (f : E string) :
  host (SubprocessRun (create_cmd bundle_sha stream)) w = (w1, inr out) ->
  copy_manifests (PyStr.strip out) w1 = (w2, t, r) ->
  host (SubprocessRun (rm_cmd (PyStr.strip out))) w2 = (w3, f) ->
  extract_bundle_refs bundle_sha stream w =
  (w3,
   EvSys (SubprocessRun (create_cmd bundle_sha stream))
     :: t ++ [EvSys (SubprocessRun (rm_cmd (PyStr.strip out)))],
   (_ <~ f ;; contents <~ r ;; parse_refs (fst contents) (snd contents))%py).
Proof.
  intros Hc Hb Hr. unfold extract_bundle_refs, bind, try_finally.
  unfold call at 1. rewrite Hc. cbv beta iota zeta. rewrite Hb.
  unfold call. rewrite Hr. cbv beta iota zeta. unfold lift.
  destruct f as [e|x], r as [e'|contents]; simpl; rewrite ?app_nil_r; reflexivity.
Qed.

(** C5: once [podman create] has returned the container, every run of
    the extractor ends its host calls with [podman rm] of that
    container, whatever happened to the copies in between. *)
Theorem container_always_removed (bundle_sha stream : string) (w w1 : World)
        (out : string) :
  host (SubprocessRun (create_cmd bundle_sha stream)) w = (w1, inr out) ->
  exists w3 body r,
    extract_bundle_refs bundle_sha stream w =
    (w3,
     EvSys (SubprocessRun (create_cmd bundle_sha stream))
       :: body ++ [EvSys (SubprocessRun (rm_cmd (PyStr.strip out)))],
     r) /\
    Forall is_sys body.
Proof.
  intros Hc.
  destruct (copy_manifests (PyStr.strip out) w1) as [[w2 t] r] eqn:Hb.
  destruct (host (SubprocessRun (rm_cmd (PyStr.strip out))) w2) as [w3 f] eqn:Hr.
  exists w3, t. eexists. split.
  - eapply extract_bundle_refs_run; eassumption.
  - eapply quiet_copy_manifests. exact Hb.
Qed.

Lemma parse_refs_unmatched (csv_content cm_content : string) (rf : refs) (r : role) :
  parse_refs csv_content cm_content = inr rf ->
  Re.search (pattern_of r) (manifest_of r csv_content cm_content) = None ->
  ref_of rf r = None.
Proof.
  rewrite parse_refs_total. intros H Hs. injection H as <-.
  destruct r; cbn [ref_of pattern_of manifest_of operator agent daemon] in *;
    rewrite Hs; reflexivity.
Qed.

(** C4: when the pattern of a role finds nothing in its manifest, the
    extractor returns normally with [None] for that role, and the
    validator prints that role's mismatch line, showing [None] as what
    the bundle wants, and returns 1. *)
Theorem unmatched_pattern_is_mismatch
        (snapshot_name namespace : string) (w w1 w2 w3 w4 : World)
        (t1 t3 : list event) (components : gmap string string)
        (stream bu out removed csv_content cm_content : string)
        (snap : role -> string) (r : role) :
  get_snapshot_components snapshot_name namespace w = (w1, t1, inr (components, stream)) ->
  (forall r', components !! component_key r' stream = Some (snap r')) ->
  components !! bundle_key stream = Some bu ->
  host (SubprocessRun (create_cmd bu stream)) w1 = (w2, inr out) ->
  copy_manifests (PyStr.strip out) w2 = (w3, t3, inr (csv_content, cm_content)) ->
  host (SubprocessRun (rm_cmd (PyStr.strip out))) w3 = (w4, inr removed) ->
  Re.search (pattern_of r) (manifest_of r csv_content cm_content) = None ->
  exists rf t2 t,
    extract_bundle_refs bu stream w1 = (w4, t2, inr rf) /\
    ref_of rf r = None /\
    validate_snapshot snapshot_name namespace w = (w4, t, inr 1) /\
    In (EvOut (mismatch_line r)) t /\
    In (EvOut "   Bundle wants:  None") t /\
    ~ In (EvOut (match_line r)) t.
Proof.
  intros Hget Hsnap Hbu Hc Hcopy Hrm Hs.
  pose proof (extract_bundle_refs_run _ _ _ _ _ _ _ _ _ _ Hc Hcopy Hrm) as Hext.
  cbn [ebind fst snd] in Hext.
  destruct (parse_refs csv_content cm_content) as [e|rf] eqn:Hp.
  { rewrite parse_refs_total in Hp. discriminate Hp. }
  pose proof (parse_refs_unmatched _ _ _ _ Hp Hs) as Hnone.
  assert (Hd : differs (ref_of rf r) (snap r) = true) by (rewrite Hnone; reflexivity).
  assert (Hm : all_match rf snap = false).
  { destruct (all_match rf snap) eqn:Hm; [|reflexivity].
    apply all_match_spec in Hm. destruct r; cbn [ref_of] in Hnone; intuition congruence. }
  pose proof (quiet_get_snapshot_components _ _ _ _ _ _ Hget) as Hq1.
  pose proof (quiet_extract_bundle_refs _ _ _ _ _ _ Hext) as Hq2.
  eexists rf, _, _. split; [exact Hext|]. split; [exact Hnone|].
  split.
  { rewrite (validate_snapshot_run _ _ _ _ _ _ _ _ _ _ _ _ Hget Hsnap Hbu Hext).
    rewrite Hm. reflexivity. }
  split; [apply mismatch_in_report; assumption|].
  split.
  - unfold report. rewrite !in_app_iff.
    do 5 right. destruct r; [left | right; left | right; right; left];
      unfold role_lines; rewrite Hd, Hnone; right; left; reflexivity.
  - rewrite match_in_report by assumption. rewrite Hd. discriminate.
Qed.

(** *** The entry point *)

(** Every run of the validator that returns went through both readers
    and the four lookups, printed the whole report and returned 0 or 1
    according to the comparisons. *)
Lemma validate_snapshot_inv (snapshot_name namespace : string) (w w2 : World)
      (t : list event) (rc : Z) :
  validate_snapshot snapshot_name namespace w = (w2, t, inr rc) ->
  exists w1 t1 components stream snap bu t2 rf,
    get_snapshot_components snapshot_name namespace w = (w1, t1, inr (components, stream)) /\
    (forall r, components !! component_key r stream = Some (snap r)) /\
    components !! bundle_key stream = Some bu /\
    extract_bundle_refs bu stream w1 = (w2, t2, inr rf) /\
    t = report snapshot_name t1 t2 snap bu rf /\
    rc = (if all_match rf snap then 0 else 1).
Proof.
  intros H. pose proof H as H0.
  unfold validate_snapshot in H0. cbv [bind print lift ret dict_lookup fst snd] in H0.
  destruct (get_snapshot_components snapshot_name namespace w)
    as [[w1 t1] [e|[components stream]]] eqn:Hget; [discriminate H0|].
  cbv [bind print lift ret dict_lookup fst snd] in H0.
  destruct (components !! component_key Operator stream) as [op|] eqn:Hop; [|discriminate H0].
  destruct (components !! component_key Agent stream) as [ag|] eqn:Hag; [|discriminate H0].
  destruct (components !! component_key Daemon stream) as [da|] eqn:Hda; [|discriminate H0].
  destruct (components !! bundle_key stream) as [bu|] eqn:Hbu; [|discriminate H0].
  destruct (extract_bundle_refs bu stream w1) as [[w2' t2] [e|rf]] eqn:Hext;
    [discriminate H0|].
  clear H0.
  set (snap := fun r => match r with Operator => op | Agent => ag | Daemon => da end).
  assert (Hsnap : forall r, components !! component_key r stream = Some (snap r))
    by (intros []; assumption).
  rewrite (validate_snapshot_run _ _ _ _ _ _ _ _ _ _ _ _ Hget Hsnap Hbu Hext) in H.
  injection H as <- <- <-.
  exists w1, t1, components, stream, snap, bu, t2, rf. repeat split; assumption.
Qed.

(** C3: the exit status is the validator's result when it returns, 0
    with three match lines or 1 with a mismatch line; it is 2 when the
    validator raises, after a line on the standard error that carries the
    exception's message, headed [Error:] for a failed command and
    [Unexpected error:] for anything else; so status 2 always means an
    exception and never a mismatch. *)
Theorem main_exit_status (snapshot namespace : string) (w w1 : World)
        (t : list event) (r : E Z) :
  validate_snapshot snapshot namespace w = (w1, t, r) ->
  (forall rc, r = inr rc ->
     main snapshot namespace w = (w1, t, rc) /\
     ((rc = 0 /\ forall ro, In (EvOut (match_line ro)) t) \/
      (rc = 1 /\ exists ro, In (EvOut (mismatch_line ro)) t))) /\
  (forall e, r = inl e ->
     main snapshot namespace w =
     (w1,
      t ++ [EvErr (nl +:+ (if is_CalledProcessError e then "Error: "
                          else "Unexpected error: ") +:+ str_exn e)],
      2)) /\
  (snd (main snapshot namespace w) = 2 <-> exists e, r = inl e).
Proof.
  intros H. unfold main. rewrite H. repeat split.
  - subst r. reflexivity.
  - subst r. apply validate_snapshot_inv in H
      as (w0 & t1 & components & stream & snap & bu & t2 & rf
          & Hget & Hsnap & Hbu & Hext & -> & ->).
    pose proof (quiet_get_snapshot_components _ _ _ _ _ _ Hget) as Hq1.
    pose proof (quiet_extract_bundle_refs _ _ _ _ _ _ Hext) as Hq2.
    destruct (all_match rf snap) eqn:Hm.
    + left. split; [reflexivity|]. intros ro.
      apply match_in_report; [assumption..|].
      apply all_match_spec in Hm. apply differs_spec.
      destruct ro; cbn [ref_of]; tauto.
    + right. split; [reflexivity|].
      unfold all_match in Hm. rewrite !andb_false_iff, !negb_false_iff in Hm.
      destruct Hm as [[Hm|Hm]|Hm];
        [exists Operator | exists Agent | exists Daemon];
        (apply mismatch_in_report; [assumption..|exact Hm]).
  - intros e ->. destruct (is_CalledProcessError e); reflexivity.
  - destruct r as [e|rc]; [intros _; exists e; reflexivity|].
    cbn [snd]. intros ->. apply validate_snapshot_inv in H
      as (_ & _ & _ & _ & snap & _ & _ & rf & _ & _ & _ & _ & _ & Hrc).
    destruct (all_match rf snap); discriminate Hrc.
  - intros [e ->]. destruct (is_CalledProcessError e); reflexivity.
Qed.

(** *** The order of the stream test and the query *)

Lemma validate_snapshot_reader_raises (snapshot_name namespace : string)
      (w w1 : World) (t1 : list event) (e : exn) :
  get_snapshot_components snapshot_name namespace w = (w1, t1, inl e) ->
  validate_snapshot snapshot_name namespace w = (w1, head_lines snapshot_name ++ t1, inl e).
Proof.
  intros H. unfold validate_snapshot. cbv [bind print]. rewrite H. reflexivity.
Qed.

(** C7, as the code has it: for a name with neither marker the run
    prints its heading, sends the cluster query, and raises right after
    it: the query's own failure, the parser's, or, when the query and the
    parsing succeed, the undetectable-stream error; no component is read
    and no container command is sent. *)
Theorem undetectable_stream_after_query (snapshot_name namespace : string)
        (w : World) :
  ~ PyStr.Contains "ystream" snapshot_name ->
  ~ PyStr.Contains "zstream" snapshot_name ->
  let query := SubprocessRun (oc_cmd snapshot_name namespace) in
  exists e,
    validate_snapshot snapshot_name namespace w =
    (fst (host query w), head_lines snapshot_name ++ [EvSys query], inl e) /\
    (forall e', snd (host query w) = inl e' -> e = e') /\
    (forall out e', snd (host query w) = inr out -> json_loads out = inl e' -> e = e') /\
    (forall out doc, snd (host query w) = inr out -> json_loads out = inr doc ->
       e = ValueError ("Cannot detect stream from snapshot name: " +:+ snapshot_name)).
Proof.
  intros Hy Hz query.
  apply str_in_false in Hy. apply str_in_false in Hz.
  assert (Hd : detect_stream snapshot_name =
               inl (ValueError ("Cannot detect stream from snapshot name: "
                                  +:+ snapshot_name)))
    by (unfold detect_stream; rewrite Hy, Hz; reflexivity).
  pose proof (get_snapshot_components_run snapshot_name namespace w) as Hget.
  fold query in Hget.
  destruct (host query w) as [w1 [e0|out]] eqn:Hq; cbn [fst snd ebind] in *.
  - exists e0. split; [apply validate_snapshot_reader_raises; exact Hget|].
    repeat split; intros; congruence.
  - unfold read_snapshot in Hget.
    destruct (json_loads out) as [e0|doc] eqn:Hj; cbn [ebind] in Hget.
    + exists e0. split; [apply validate_snapshot_reader_raises; exact Hget|].
      repeat split; intros; congruence.
    + rewrite Hd in Hget. cbn [ebind] in Hget.
      eexists. split; [apply validate_snapshot_reader_raises; exact Hget|].
      repeat split; intros; congruence.
Qed.

(** *** Snapshots that lack a component or a digest *)

Lemma add_component_inv (m m' : gmap string string) (comp : pyval) :
  add_component m comp = inr m' ->
  (exists k sha, getitem comp "name" = inr (PStr k) /\ m' = <[k := sha]> m) \/
  (m' = m /\ forall k, getitem comp "name" <> inr (PStr k)).
Proof.
  unfold add_component.
  destruct (getitem comp "name") as [e|name]; cbn [ebind]; [discriminate|].
  destruct (getitem comp "containerImage") as [e|image]; cbn [ebind]; [discriminate|].
  destruct (image_sha image) as [e|sha]; cbn [ebind]; [discriminate|].
  destruct name; cbn [setitem]; intros H; try discriminate H;
    injection H as <-;
    try (right; split; [reflexivity | intros k Hk; discriminate Hk]).
  left. eauto.
Qed.

Lemma add_component_exn (m : gmap string string) (comp : pyval) (e : exn) :
  add_component m comp = inl e -> is_CalledProcessError e = false.
Proof.
  unfold add_component, getitem, image_sha, py_split, list_index, setitem.
  destruct comp as [| | | | |l|kvs]; cbn [ebind];
    try (intros H; injection H as <-; reflexivity).
  destruct (dict_get "name" kvs) as [name|]; cbn [ebind];
    [|intros H; injection H as <-; reflexivity].
  destruct (dict_get "containerImage" kvs) as [image|]; cbn [ebind];
    [|intros H; injection H as <-; reflexivity].
  destruct image; cbn [ebind]; try (intros H; injection H as <-; reflexivity).
  destruct (nth_error _ 1); cbn [ebind];
    [|intros H; injection H as <-; reflexivity].
  destruct name; intros H; try discriminate H; injection H as <-; reflexivity.
Qed.

Lemma add_component_no_at (m : gmap string string) (comp : pyval) (img : string) :
  getitem comp "containerImage" = inr (PStr img) ->
  PyStr.lacks "@" img = true ->
  exists e, add_component m comp = inl e.
Proof.
  intros Hi Hl. unfold add_component. rewrite Hi.
  destruct (getitem comp "name") as [e|name]; cbn [ebind]; [eauto|].
  unfold image_sha, py_split. rewrite (split_lacks _ _ Hl). cbn. eauto.
Qed.

Lemma add_components_exn (items : list pyval) :
  forall (m : gmap string string) (e : exn),
    add_components items m = inl e -> is_CalledProcessError e = false.
Proof.
  induction items as [|comp items IH]; intros m e; cbn [add_components].
  - discriminate.
  - destruct (add_component m comp) as [e'|m1] eqn:Hc; cbn [ebind].
    + intros H. injection H as <-. eapply add_component_exn. exact Hc.
    + apply IH.
Qed.

Lemma add_components_no_at (items : list pyval) (comp : pyval) (img : string) :
  In comp items ->
  getitem comp "containerImage" = inr (PStr img) ->
  PyStr.lacks "@" img = true ->
  forall m : gmap string string, exists e, add_components items m = inl e.
Proof.
  intros Hin Hi Hl. induction items as [|c items IH]; [destruct Hin|].
  intros m. cbn [add_components].
  destruct Hin as [-> | Hin].
  - destruct (add_component_no_at m comp img Hi Hl) as [e ->]. cbn [ebind]. eauto.
  - destruct (add_component m c) as [e|m1]; cbn [ebind]; [eauto | apply IH; exact Hin].
Qed.

(** The loop stores nothing under a key that names no component. *)
Lemma add_components_lookup (items : list pyval) (k : string) :
  (forall comp, In comp items -> getitem comp "name" <> inr (PStr k)) ->
  forall m m' : gmap string string,
    add_components items m = inr m' -> m' !! k = m !! k.
Proof.
  induction items as [|c items IH]; intros Hno m m'; cbn [add_components].
  - intros H. injection H as <-. reflexivity.
  - destruct (add_component m c) as [e|m1] eqn:Hc; cbn [ebind]; [discriminate|].
    intros H. rewrite (IH (fun comp Hin => Hno comp (or_intror Hin)) _ _ H).
    destruct (add_component_inv _ _ _ Hc) as [(k' & sha & Hn & ->) | [-> _]];
      [|reflexivity].
    apply lookup_insert_ne. intros ->. exact (Hno c (or_introl eq_refl) Hn).
Qed.

Lemma read_snapshot_items (snapshot_name out : string) (doc : pyval)
      (items : list pyval) :
  json_loads out = inr doc ->
  snapshot_items doc = inr items ->
  read_snapshot snapshot_name out =
  (stream <~ detect_stream snapshot_name ;;
   components <~ add_components items ∅ ;;
   inr (components, stream))%py.
Proof.
  intros Hj Hi. unfold read_snapshot, snapshot_items in *. rewrite Hj. cbn [ebind].
  destruct (detect_stream snapshot_name) as [e|stream]; cbn [ebind]; [reflexivity|].
  destruct (getitem doc "spec") as [e|spec]; cbn [ebind] in *; [discriminate|].
  destruct (getitem spec "components") as [e|comps]; cbn [ebind] in *; [discriminate|].
  rewrite Hi. reflexivity.
Qed.

Lemma detect_stream_exn (snapshot_name : string) (e : exn) :
  detect_stream snapshot_name = inl e -> is_CalledProcessError e = false.
Proof.
  unfold detect_stream.
  destruct (PyStr.str_in "ystream" snapshot_name); [discriminate|].
  destruct (PyStr.str_in "zstream" snapshot_name); [discriminate|].
  intros H. injection H as <-. reflexivity.
Qed.

(** With one of the four keys missing the validator raises [KeyError]
    part way through the snapshot section of the report. *)
Lemma validate_snapshot_missing_key (snapshot_name namespace : string)
      (w w1 : World) (t1 : list event) (components : gmap string string)
      (stream key : string) :
  get_snapshot_components snapshot_name namespace w = (w1, t1, inr (components, stream)) ->
  In key (expected_keys stream) ->
  components !! key = None ->
  exists n op ag da bu k,
    validate_snapshot snapshot_name namespace w =
    (w1, head_lines snapshot_name ++ t1 ++ firstn n (snapshot_lines op ag da bu),
     inl (KeyError k)).
Proof.
  intros Hget Hin Hnone.
  unfold validate_snapshot. cbv [bind print lift ret dict_lookup fst snd].
  rewrite Hget. cbv [bind print lift ret dict_lookup fst snd].
  destruct (components !! component_key Operator stream) as [op|] eqn:Hop.
  2:{ exists 1%nat, "", "", "", "", (component_key Operator stream).
      rewrite ?app_nil_r. reflexivity. }
  destruct (components !! component_key Agent stream) as [ag|] eqn:Hag.
  2:{ exists 2%nat, op, "", "", "", (component_key Agent stream).
      rewrite ?app_nil_r. reflexivity. }
  destruct (components !! component_key Daemon stream) as [da|] eqn:Hda.
  2:{ exists 3%nat, op, ag, "", "", (component_key Daemon stream).
      rewrite ?app_nil_r. reflexivity. }
  destruct (components !! bundle_key stream) as [bu|] eqn:Hbu.
  2:{ exists 4%nat, op, ag, da, "", (bundle_key stream).
      rewrite ?app_nil_r. reflexivity. }
  exfalso. unfold expected_keys in Hin. cbn [In] in Hin.
  destruct Hin as [<-|[<-|[<-|[<-|[]]]]]; congruence.
Qed.

Lemma In_firstn {A : Type} (x : A) (n : nat) (l : list A) :
  In x (firstn n l) -> In x l.
Proof.
  revert l. induction n as [|n IH]; intros [|y l]; cbn [firstn In]; try tauto.
  intros [H|H]; [left; exact H | right; apply IH; exact H].
Qed.

Lemma snapshot_prefix_no_role_line (n : nat) (op ag da bu line : string) (r : role) :
  line = mismatch_line r \/ line = match_line r ->
  ~ In (EvOut line) (firstn n (snapshot_lines op ag da bu)).
Proof.
  intros Hl Hin. apply In_firstn in Hin as Hin'.
  eapply (role_line_not_elsewhere r "" op ag da bu (mkRefs None None None) true);
    [exact Hl|].
  rewrite !in_app_iff. right. left. exact Hin'.
Qed.

Lemma main_raises (snapshot namespace : string) (w w1 : World)
      (t : list event) (e : exn) :
  validate_snapshot snapshot namespace w = (w1, t, inl e) ->
  is_CalledProcessError e = false ->
  main snapshot namespace w =
  (w1, t ++ [EvErr (nl +:+ "Unexpected error: " +:+ str_exn e)], 2).
Proof. intros H He. unfold main. rewrite H, He. reflexivity. Qed.

(** C10: when the fetched snapshot names no component for one of the
    four expected keys, or holds a component whose image has no [@], the
    process ends with status 2 through the handler of unexpected errors:
    the trace is the heading, the query, at most a first part of the
    snapshot section and the error line, with no comparison line and no
    container command. *)
Theorem incomplete_snapshot_exit_2 (snapshot_name namespace : string)
        (w w1 : World) (out : string) (doc : pyval) (items : list pyval) :
  host (SubprocessRun (oc_cmd snapshot_name namespace)) w = (w1, inr out) ->
  json_loads out = inr doc ->
  snapshot_items doc = inr items ->
  (exists stream key,
      detect_stream snapshot_name = inr stream /\
      In key (expected_keys stream) /\
      forall comp, In comp items -> getitem comp "name" <> inr (PStr key)) \/
  (exists comp img,
      In comp items /\
      getitem comp "containerImage" = inr (PStr img) /\
      PyStr.lacks "@" img = true) ->
  exists e n op ag da bu,
    main snapshot_name namespace w =
    (w1,
     head_lines snapshot_name
       ++ EvSys (SubprocessRun (oc_cmd snapshot_name namespace))
       :: firstn n (snapshot_lines op ag da bu)
       ++ [EvErr (nl +:+ "Unexpected error: " +:+ str_exn e)],
     2) /\
    forall r,
      ~ In (EvOut (mismatch_line r))
           (head_lines snapshot_name
              ++ EvSys (SubprocessRun (oc_cmd snapshot_name namespace))
              :: firstn n (snapshot_lines op ag da bu)).
Proof.
  intros Hq Hj Hi Hcase.
  pose proof (get_snapshot_components_run snapshot_name namespace w) as Hget.
  rewrite Hq in Hget. cbn [fst snd ebind] in Hget.
  rewrite (read_snapshot_items _ _ _ _ Hj Hi) in Hget.
  assert (Hlines : forall n op ag da bu r,
             ~ In (EvOut (mismatch_line r))
                  (head_lines snapshot_name
                     ++ EvSys (SubprocessRun (oc_cmd snapshot_name namespace))
                     :: firstn n (snapshot_lines op ag da bu))).
  { intros n op ag da bu r Hin. apply in_app_iff in Hin as [Hin|[Hin|Hin]].
    - apply (role_line_not_elsewhere r snapshot_name "" "" "" ""
               (mkRefs None None None) true _ (or_introl eq_refl)).
      apply in_app_iff. left. exact Hin.
    - discriminate Hin.
    - exact (snapshot_prefix_no_role_line n op ag da bu _ r (or_introl eq_refl) Hin). }
  destruct (detect_stream snapshot_name) as [e|stream] eqn:Hd; cbn [ebind] in Hget.
  { exists e, 0%nat, "", "", "", "". split; [|apply Hlines].
    rewrite (main_raises _ _ _ _ _ _ (validate_snapshot_reader_raises _ _ _ _ _ _ Hget)
               (detect_stream_exn _ _ Hd)).
    rewrite <- app_assoc. reflexivity. }
  destruct (add_components items ∅) as [e|components] eqn:Ha; cbn [ebind] in Hget.
  { exists e, 0%nat, "", "", "", "". split; [|apply Hlines].
    rewrite (main_raises _ _ _ _ _ _ (validate_snapshot_reader_raises _ _ _ _ _ _ Hget)
               (add_components_exn _ _ _ Ha)).
    rewrite <- app_assoc. reflexivity. }
  destruct Hcase as [(stream' & key & Hs & Hin & Hno) | (comp & img & Hin & Himg & Hl)].
  - injection Hs as <-.
    assert (Hnone : components !! key = None).
    { rewrite (add_components_lookup items key Hno _ _ Ha). apply lookup_empty. }
    destruct (validate_snapshot_missing_key _ _ _ _ _ _ _ _ Hget Hin Hnone)
      as (n & op & ag & da & bu & k & Hv).
    exists (KeyError k), n, op, ag, da, bu. split; [|apply Hlines].
    rewrite (main_raises _ _ _ _ _ _ Hv eq_refl).
    rewrite <- !app_assoc. reflexivity.
  - destruct (add_components_no_at items comp img Hin Himg Hl ∅) as [e He].
    congruence.
Qed.

(** *** Reading a well-formed snapshot *)

Lemma add_component_named (m : gmap string string) (comp image : pyval)
      (k sha : string) :
  getitem comp "name" = inr (PStr k) ->
  getitem comp "containerImage" = inr image ->
  image_sha image = inr sha ->
  add_component m comp = inr (<[k := sha]> m).
Proof.
  intros Hn Hi Hs. unfold add_component. rewrite Hn, Hi. cbn [ebind].
  rewrite Hs. reflexivity.
Qed.

Lemma get_snapshot_components_ok (snapshot_name namespace : string) (w w1 : World)
      (out : string) (doc : pyval) (stream : string) (items : list pyval)
      (components : gmap string string) :
  host (SubprocessRun (oc_cmd snapshot_name namespace)) w = (w1, inr out) ->
  json_loads out = inr doc ->
  detect_stream snapshot_name = inr stream ->
  snapshot_items doc = inr items ->
  add_components items ∅ = inr components ->
  get_snapshot_components snapshot_name namespace w =
  (w1, [EvSys (SubprocessRun (oc_cmd snapshot_name namespace))],
   inr (components, stream)).
Proof.
  intros Hq Hj Hd Hi Ha. rewrite get_snapshot_components_run, Hq.
  cbn [fst snd ebind]. rewrite (read_snapshot_items _ _ _ _ Hj Hi), Hd.
  cbn [ebind]. rewrite Ha. reflexivity.
Qed.

(** ** Further properties of the script *)

(** *** The stream detector and the digest of an image *)

(** X1: the label the detector returns is "ystream" or "zstream" and
    occurs in the name; the detector raises exactly when the name holds
    neither marker. *)
Theorem detect_stream_label (snapshot_name : string) :
  (forall s, detect_stream snapshot_name = inr s ->
             (s = "ystream" \/ s = "zstream") /\ PyStr.Contains s snapshot_name) /\
  ((exists e, detect_stream snapshot_name = inl e) <->
   ~ PyStr.Contains "ystream" snapshot_name /\ ~ PyStr.Contains "zstream" snapshot_name).
Proof.
  unfold detect_stream. rewrite <- !str_in_false.
  destruct (PyStr.str_in "ystream" snapshot_name) eqn:Hy.
  { split.
    - intros s H. injection H as <-. split; [left; reflexivity | apply str_in_spec; exact Hy].
    - split; [intros [e H]; discriminate H | intros [H _]; discriminate H]. }
  destruct (PyStr.str_in "zstream" snapshot_name) eqn:Hz.
  { split.
    - intros s H. injection H as <-. split; [right; reflexivity | apply str_in_spec; exact Hz].
    - split; [intros [e H]; discriminate H | intros [_ H]; discriminate H]. }
  split.
  - intros s H. discriminate H.
  - split; [intros _; split; reflexivity | intros _; eexists; reflexivity].
Qed.

Lemma lacks_false_split (c : ascii) (s : string) :
  PyStr.lacks c s = false ->
  exists a b, s = a +:+ String c b /\ PyStr.lacks c a = true.
Proof.
  induction s as [|x s IH]; simpl; [discriminate|].
  destruct (Ascii.eqb_spec x c) as [->|Hne].
  - intros _. exists EmptyString, s. split; reflexivity.
  - intros H. destruct (IH H) as (a & b & -> & Ha).
    exists (String x a), b. split; [reflexivity|].
    simpl. destruct (Ascii.eqb_spec x c); [contradiction | exact Ha].
Qed.

Lemma split_aux_fst_lacks (sep : ascii) (s : string) :
  PyStr.lacks sep (fst (PyStr.split_aux sep s)) = true.
Proof.
  induction s as [|c s IH]; simpl; [reflexivity|].
  destruct (PyStr.split_aux sep s) as [cur rest].
  destruct (Ascii.eqb c sep) eqn:Hc; simpl; [reflexivity|].
  rewrite Hc. exact IH.
Qed.

Lemma image_sha_after_first_at (a b : string) :
  PyStr.lacks "@" a = true ->
  image_sha (PStr (a +:+ String "@" b)) = inr (fst (PyStr.split_aux "@" b)).
Proof.
  intros Ha. unfold image_sha, py_split, PyStr.split. cbn [ebind].
  rewrite split_aux_one by exact Ha. reflexivity.
Qed.

(** X2: an image reference without [@] makes the reader raise
    IndexError, and any reference with an [@] yields a digest, which
    itself holds no [@]. *)
Theorem image_sha_index_error (img : string) :
  (PyStr.lacks "@" img = true ->
   image_sha (PStr img) = inl (IndexError "list index out of range")) /\
  (PyStr.lacks "@" img = false ->
   exists d, image_sha (PStr img) = inr d /\ PyStr.lacks "@" d = true).
Proof.
  split.
  - intros H. unfold image_sha, py_split. rewrite (split_lacks _ _ H). reflexivity.
  - intros H. destruct (lacks_false_split _ _ H) as (a & b & -> & Ha).
    eexists. split; [apply image_sha_after_first_at; exact Ha|].
    apply split_aux_fst_lacks.
Qed.

(** X3: when the reference holds a second [@], the digest kept is the
    piece between the first two and what follows the second is dropped. *)
Theorem image_sha_between_ats (a b rest : string) :
  PyStr.lacks "@" a = true ->
  PyStr.lacks "@" b = true ->
  image_sha (PStr (a +:+ "@" +:+ b +:+ "@" +:+ rest)) = inr b.
Proof.
  intros Ha Hb.
  change (a +:+ "@" +:+ b +:+ "@" +:+ rest)
    with (a +:+ String "@" (b +:+ String "@" rest)).
  rewrite image_sha_after_first_at by exact Ha.
  rewrite split_aux_one by exact Hb. reflexivity.
Qed.

(** *** The components dict *)

Lemma add_components_app (xs ys : list pyval) (m : gmap string string) :
  add_components (xs ++ ys) m =
  (m1 <~ add_components xs m ;; add_components ys m1)%py.
Proof.
  revert m. induction xs as [|x xs IH]; intros m; cbn [app add_components ebind];
    [reflexivity|].
  destruct (add_component m x) as [e|m1]; cbn [ebind]; [reflexivity | apply IH].
Qed.

(** X4: when several components carry the same name, the digest stored
    under it is that of the last one. *)
Theorem last_component_wins (before after : list pyval) (comp image : pyval)
        (k sha : string) (m m' : gmap string string) :
  add_components (before ++ comp :: after) m = inr m' ->
  getitem comp "name" = inr (PStr k) ->
  getitem comp "containerImage" = inr image ->
  image_sha image = inr sha ->
  (forall c, In c after -> getitem c "name" <> inr (PStr k)) ->
  m' !! k = Some sha.
Proof.
  intros Hrun Hn Hi Hs Hafter. rewrite add_components_app in Hrun.
  destruct (add_components before m) as [e|m1]; cbn [ebind] in Hrun; [discriminate|].
  cbn [add_components] in Hrun.
  rewrite (add_component_named m1 comp image k sha Hn Hi Hs) in Hrun. cbn [ebind] in Hrun.
  rewrite (add_components_lookup after k Hafter _ _ Hrun).
  apply lookup_insert_eq.
Qed.

(** X5: after the loop the dict holds a key exactly when it held it
    before or some component is named so. *)
Theorem components_keys (items : list pyval) (k : string) :
  forall m m' : gmap string string,
    add_components items m = inr m' ->
    (is_Some (m' !! k) <->
     is_Some (m !! k) \/
     exists comp, In comp items /\ getitem comp "name" = inr (PStr k)).
Proof.
  induction items as [|c items IH]; intros m m' H; cbn [add_components] in H.
  - injection H as <-. split; [auto | intros [H|(comp & [] & _)]; exact H].
  - destruct (add_component m c) as [e|m1] eqn:Hc; cbn [ebind] in H; [discriminate|].
    rewrite (IH _ _ H).
    destruct (add_component_inv _ _ _ Hc) as [(k' & sha & Hn & ->) | [-> Hno]].
    + destruct (decide (k' = k)) as [->|Hne].
      * rewrite lookup_insert_eq. split; intros _.
        -- right. exists c. split; [left; reflexivity | exact Hn].
        -- left. eauto.
      * rewrite lookup_insert_ne by exact Hne. split.
        -- intros [Hm | (comp & Hin & Hname)]; [left; exact Hm|].
           right. exists comp. split; [right; exact Hin | exact Hname].
        -- intros [Hm | (comp & [<- | Hin] & Hname)]; [left; exact Hm | |].
           ++ congruence.
           ++ right. exists comp. split; assumption.
    + split.
      * intros [Hm | (comp & Hin & Hname)]; [left; exact Hm|].
        right. exists comp. split; [right; exact Hin | exact Hname].
      * intros [Hm | (comp & [<- | Hin] & Hname)]; [left; exact Hm | |].
        -- exfalso. exact (Hno k Hname).
        -- right. exists comp. split; assumption.
Qed.

(** *** What the patterns find *)

Lemma sapp_assoc (a b c : string) : (a +:+ b) +:+ c = a +:+ (b +:+ c).
Proof.
  induction a as [|x a IH]; rewrite ?append_nil, ?append_cons; [reflexivity|].
  rewrite IH. reflexivity.
Qed.

Lemma length_sapp (a b : string) :
  String.length (a +:+ b) = (String.length a + String.length b)%nat.
Proof.
  induction a as [|x a IH]; rewrite ?append_nil, ?append_cons; simpl; [reflexivity|].
  rewrite IH. reflexivity.
Qed.

Lemma substring_prefix (a b : string) :
  substring 0 (String.length a) (a +:+ b) = a.
Proof.
  induction a as [|x a IH]; rewrite ?append_nil, ?append_cons; simpl.
  - destruct b; reflexivity.
  - rewrite IH. reflexivity.
Qed.

Lemma consumed_app (text rest : string) :
  Re.consumed (text +:+ rest) rest = text.
Proof.
  unfold Re.consumed. rewrite length_sapp.
  replace (String.length text + String.length rest - String.length rest)%nat
    with (String.length text) by lia.
  apply substring_prefix.
Qed.

Lemma strip_lit_sound (p s rest : string) :
  Re.strip_lit p s = Some rest -> s = p +:+ rest.
Proof.
  revert s. induction p as [|a p IH]; intros s; simpl.
  - intros H. injection H as ->. reflexivity.
  - destruct s as [|b s]; [discriminate|].
    destruct (Ascii.eqb_spec a b) as [->|]; [|discriminate].
    intros H. rewrite append_cons, (IH _ H). reflexivity.
Qed.

Lemma strip_lit_app (p rest : string) :
  Re.strip_lit p (p +:+ rest) = Some rest.
Proof.
  induction p as [|a p IH]; rewrite ?append_nil, ?append_cons; simpl; [reflexivity|].
  rewrite Ascii.eqb_refl. exact IH.
Qed.

Lemma star_sound {A : Type} (cls : ascii -> bool) (s : string)
      (k : string -> option A) (res : A) :
  Re.star cls s k = Some res ->
  exists text rest,
    s = text +:+ rest /\ PyStr.all cls text = true /\ k rest = Some res.
Proof.
  induction s as [|c s IH]; simpl.
  - intros H. exists EmptyString, EmptyString. auto.
  - destruct (cls c) eqn:Hc.
    + destruct (Re.star cls s k) as [m|] eqn:Hs.
      * intros H. injection H as ->.
        destruct (IH eq_refl) as (text & rest & -> & Ht & Hk).
        exists (String c text), rest. repeat split; [|exact Hk].
        simpl. rewrite Hc. exact Ht.
      * intros H. exists EmptyString, (String c s). auto.
    + intros H. exists EmptyString, (String c s). auto.
Qed.

Lemma star_none {A : Type} (cls : ascii -> bool) (s : string)
      (k : string -> option A) :
  Re.star cls s k = None -> k s = None.
Proof.
  destruct s as [|c s]; simpl; [auto|].
  destruct (cls c); [|auto]. destruct (Re.star cls s k); [discriminate | auto].
Qed.

Lemma star_complete {A : Type} (cls : ascii -> bool) (text rest : string)
      (k : string -> option A) :
  PyStr.all cls text = true ->
  Re.star cls (text +:+ rest) k = None -> k rest = None.
Proof.
  induction text as [|c text IH]; rewrite ?append_nil, ?append_cons; simpl.
  - intros _. apply star_none.
  - destruct (cls c); [|discriminate]. simpl. intros Ht H.
    apply IH; [exact Ht|].
    destruct (Re.star cls (text +:+ rest) k); [discriminate H | reflexivity].
Qed.

(** Whatever the matcher accepts is a text of the pattern, with its
    groups, followed by what the continuation gets. *)
Lemma run_sound (r : Re.regex) :
  forall s caps k res,
    Re.run r s caps k = Some res ->
    exists text rest gs,
      s = text +:+ rest /\ matches r text gs /\ k rest (caps ++ gs) = Some res.
Proof.
  induction r as [p|cls|cls|r1 IH1 r2 IH2|r1 IH1]; intros s caps k res H; simpl in H.
  - destruct (Re.strip_lit p s) as [rest|] eqn:Hp; [|discriminate].
    exists p, rest, []. rewrite app_nil_r.
    split; [apply strip_lit_sound; exact Hp|]. split; [split; reflexivity | exact H].
  - apply star_sound in H as (text & rest & -> & Ht & Hk).
    exists text, rest, []. rewrite app_nil_r. repeat split; assumption.
  - destruct s as [|c s]; simpl in H; [discriminate|].
    destruct (cls c) eqn:Hc; [|discriminate].
    apply star_sound in H as (text & rest & -> & Ht & Hk).
    exists (String c text), rest, []. rewrite app_nil_r.
    split; [reflexivity|]. split; [|exact Hk].
    split; [simpl; rewrite Hc; exact Ht|]. split; [discriminate | reflexivity].
  - apply IH1 in H as (t1 & rest1 & g1 & -> & Hm1 & H).
    apply IH2 in H as (t2 & rest2 & g2 & -> & Hm2 & H).
    exists (t1 +:+ t2), rest2, (g1 ++ g2).
    split; [symmetry; apply sapp_assoc|]. split.
    + exists t1, t2, g1, g2. repeat split; assumption.
    + rewrite app_assoc. exact H.
  - apply IH1 in H as (t1 & rest1 & g1 & -> & Hm1 & H).
    rewrite consumed_app in H.
    exists t1, rest1, (g1 ++ [t1]).
    split; [reflexivity|]. split; [exists g1; split; [exact Hm1 | reflexivity]|].
    rewrite app_assoc. exact H.
Qed.

(** The matcher misses no text of the pattern that starts at its
    position. *)
Lemma run_complete (r : Re.regex) :
  forall s caps k,
    Re.run r s caps k = None ->
    forall text rest gs,
      s = text +:+ rest -> matches r text gs -> k rest (caps ++ gs) = None.
Proof.
  induction r as [p|cls|cls|r1 IH1 r2 IH2|r1 IH1];
    intros s caps k H text rest gs -> Hm; simpl in H, Hm.
  - destruct Hm as [-> ->]. rewrite strip_lit_app in H. rewrite app_nil_r. exact H.
  - destruct Hm as [Ht ->]. rewrite app_nil_r.
    exact (star_complete cls text rest _ Ht H).
  - destruct Hm as (Ht & Hne & ->). rewrite app_nil_r.
    destruct text as [|c text]; [contradiction|].
    rewrite append_cons in H. simpl in H, Ht.
    destruct (cls c); [|discriminate]. simpl in Ht.
    exact (star_complete cls text rest _ Ht H).
  - destruct Hm as (t1 & t2 & g1 & g2 & -> & -> & Hm1 & Hm2).
    rewrite sapp_assoc in H.
    pose proof (IH1 _ _ _ H t1 (t2 +:+ rest) g1 eq_refl Hm1) as H2.
    rewrite app_assoc. exact (IH2 _ _ _ H2 t2 rest g2 eq_refl Hm2).
  - destruct Hm as (g & Hm1 & ->).
    pose proof (IH1 _ _ _ H text rest g eq_refl Hm1) as H2. cbv beta in H2.
    rewrite consumed_app in H2. rewrite app_assoc. exact H2.
Qed.

Lemma search_sound (r : Re.regex) (s : string) (gs : list string) :
  Re.search r s = Some gs ->
  exists pre text post, s = pre +:+ text +:+ post /\ matches r text gs.
Proof.
  induction s as [|c s IH]; simpl; unfold Re.match_here;
    destruct (Re.run r _ [] _) as [m|] eqn:Hm; intros H; try discriminate.
  - injection H as ->. apply run_sound in Hm as (text & rest & g & Hs & Hmt & Hk).
    injection Hk as <-. exists EmptyString, text, rest. split; [exact Hs | exact Hmt].
  - injection H as ->. apply run_sound in Hm as (text & rest & g & Hs & Hmt & Hk).
    injection Hk as <-. exists EmptyString, text, rest. split; [exact Hs | exact Hmt].
  - destruct (IH H) as (pre & text & post & -> & Hmt).
    exists (String c pre), text, post. split; [reflexivity | exact Hmt].
Qed.

Lemma search_none_here (r : Re.regex) (s : string) :
  Re.search r s = None -> Re.match_here r s = None.
Proof.
  destruct s as [|c s]; simpl; destruct (Re.match_here r _) as [m|] eqn:Hm;
    intros H; congruence.
Qed.

Lemma search_complete (r : Re.regex) (pre text post : string) (gs : list string) :
  matches r text gs -> Re.search r (pre +:+ text +:+ post) <> None.
Proof.
  intros Hm. induction pre as [|c pre IH]; rewrite ?append_nil, ?append_cons.
  - intros H.
    pose proof (search_none_here _ _ H) as Hh.
    pose proof (run_complete r _ _ _ Hh text post gs eq_refl Hm) as Hk.
    discriminate Hk.
  - intros H. simpl in H. destruct (Re.match_here r _); [discriminate|].
    exact (IH H).
Qed.

(** The texts of the three patterns of the script. *)
Lemma matches_pattern (r : role) (text : string) (gs : list string) :
  matches (pattern_of r) text gs <->
  exists gap hex,
    text = key_of r +:+ gap +:+ "@" +:+ "sha256:" +:+ hex /\
    gap_ok r gap /\ hex <> EmptyString /\ PyStr.all Re.hex_lower hex = true /\
    gs = ["sha256:" +:+ hex].
Proof.
  split.
  - destruct r; cbn [pattern_of operator_re agent_re daemon_re sha_group matches].
    + intros (t1 & t2 & g1 & g2 & -> & -> & [-> ->] & g
              & (u1 & u2 & h1 & h2 & -> & -> & [-> ->] & Hh & Hne & ->) & ->).
      exists EmptyString, u2. repeat split; assumption.
    + intros (t1 & t2 & g1 & g2 & -> & -> & [-> ->]
              & gap & t3 & g3 & g4 & -> & -> & [Hgap ->]
              & a & t4 & g5 & g6 & -> & -> & [-> ->] & g
              & (u1 & u2 & h1 & h2 & -> & -> & [-> ->] & Hh & Hne & ->) & ->).
      exists gap, u2. repeat split; assumption.
    + intros (t1 & t2 & g1 & g2 & -> & -> & [-> ->]
              & gap & t3 & g3 & g4 & -> & -> & [Hgap ->]
              & a & t4 & g5 & g6 & -> & -> & [-> ->] & g
              & (u1 & u2 & h1 & h2 & -> & -> & [-> ->] & Hh & Hne & ->) & ->).
      exists gap, u2. repeat split; assumption.
  - intros (gap & hex & -> & Hgap & Hne & Hh & ->).
    assert (Hg : matches sha_group ("sha256:" +:+ hex) ["sha256:" +:+ hex]).
    { exists []. split; [|reflexivity].
      exists "sha256:", hex, [], [].
      split; [reflexivity|]. split; [reflexivity|]. split; [split; reflexivity|].
      split; [exact Hh|]. split; [exact Hne | reflexivity]. }
    assert (Hcat : forall p t g, matches (Re.Lit p) p [] /\
                (matches sha_group t g -> matches (Re.Cat (Re.Lit p) sha_group) (p +:+ t) g)).
    { intros p t g. split; [split; reflexivity|]. intros Hm.
      exists p, t, [], g. repeat split. exact Hm. }
    assert (Htail : matches (Re.Cat (Re.Lit "@") sha_group)
                      ("@" +:+ "sha256:" +:+ hex) ["sha256:" +:+ hex])
      by (apply Hcat; exact Hg).
    destruct r; cbn [pattern_of operator_re agent_re daemon_re gap_ok key_of] in *.
    + subst gap.
      exists "registry.redhat.io/bpfman/bpfman-rhel9-operator@", ("sha256:" +:+ hex),
             [], ["sha256:" +:+ hex].
      split; [reflexivity|]. split; [reflexivity|]. split; [split; reflexivity|].
      exact Hg.
    + exists "bpfman.agent.image:", (gap +:+ "@" +:+ "sha256:" +:+ hex),
             [], ["sha256:" +:+ hex].
      split; [reflexivity|]. split; [reflexivity|]. split; [split; reflexivity|].
      exists gap, ("@" +:+ "sha256:" +:+ hex), [], ["sha256:" +:+ hex].
      split; [reflexivity|]. split; [reflexivity|]. split; [split; [exact Hgap | reflexivity]|].
      exact Htail.
    + exists "bpfman.image:", (gap +:+ "@" +:+ "sha256:" +:+ hex),
             [], ["sha256:" +:+ hex].
      split; [reflexivity|]. split; [reflexivity|]. split; [split; reflexivity|].
      exists gap, ("@" +:+ "sha256:" +:+ hex), [], ["sha256:" +:+ hex].
      split; [reflexivity|]. split; [reflexivity|]. split; [split; [exact Hgap | reflexivity]|].
      exact Htail.
Qed.

Lemma ref_of_parse_refs (csv_content cm_content : string) (rf : refs) (r : role) :
  parse_refs csv_content cm_content = inr rf ->
  ref_of rf r =
  first_group (Re.search (pattern_of r) (manifest_of r csv_content cm_content)).
Proof.
  rewrite parse_refs_total. intros H. injection H as <-. destruct r; reflexivity.
Qed.

Lemma parse_refs_sound (csv_content cm_content : string) (rf : refs) (r : role)
      (d : string) :
  parse_refs csv_content cm_content = inr rf ->
  ref_of rf r = Some d ->
  sha256_digest d /\
  exists pre gap post,
    manifest_of r csv_content cm_content
    = pre +:+ key_of r +:+ gap +:+ "@" +:+ d +:+ post /\
    gap_ok r gap.
Proof.
  intros Hp Hr. rewrite (ref_of_parse_refs _ _ _ r Hp) in Hr.
  destruct (Re.search _ _) as [[|g gs]|] eqn:Hs; try discriminate Hr.
  injection Hr as ->.
  apply search_sound in Hs as (pre & text & post & Hm & Hmt).
  apply matches_pattern in Hmt as (gap & hex & -> & Hgap & Hne & Hh & Hgs).
  injection Hgs as -> ->. split.
  - exists hex. repeat split; assumption.
  - exists pre, gap, post. split; [|exact Hgap].
    rewrite Hm, !sapp_assoc. reflexivity.
Qed.

(** X6: a digest the extractor returns is [sha256:] followed by lower-case
    hexadecimal digits, and it stands in the role's manifest after the
    role's key and an [@], on the key's line. *)
Theorem extracted_digest_is_in_manifest
        (csv_content cm_content : string) (rf : refs) (r : role) (d : string) :
  parse_refs csv_content cm_content = inr rf ->
  ref_of rf r = Some d ->
  sha256_digest d /\
  exists pre gap post,
    manifest_of r csv_content cm_content
    = pre +:+ key_of r +:+ gap +:+ "@" +:+ d +:+ post /\
    gap_ok r gap.
Proof. apply parse_refs_sound. Qed.

(** X7: when the role's manifest holds the role's key followed on the same
    line by [@] and a sha256 digest, the extractor does not return [None]
    for the role. *)
Theorem present_digest_is_found
        (csv_content cm_content pre gap d post : string) (rf : refs) (r : role) :
  parse_refs csv_content cm_content = inr rf ->
  manifest_of r csv_content cm_content
  = pre +:+ key_of r +:+ gap +:+ "@" +:+ d +:+ post ->
  gap_ok r gap ->
  sha256_digest d ->
  exists found, ref_of rf r = Some found /\ sha256_digest found.
Proof.
  intros Hp Hm Hgap (hex & -> & Hne & Hh).
  rewrite (ref_of_parse_refs _ _ _ r Hp).
  assert (Hmt : matches (pattern_of r)
                  (key_of r +:+ gap +:+ "@" +:+ "sha256:" +:+ hex)
                  ["sha256:" +:+ hex]).
  { apply matches_pattern. exists gap, hex. repeat split; assumption. }
  assert (Hs : Re.search (pattern_of r) (manifest_of r csv_content cm_content) <> None).
  { rewrite Hm.
    replace (pre +:+ key_of r +:+ gap +:+ "@" +:+ ("sha256:" +:+ hex) +:+ post)
      with (pre +:+ (key_of r +:+ gap +:+ "@" +:+ "sha256:" +:+ hex) +:+ post)
      by (rewrite !sapp_assoc; reflexivity).
    eapply search_complete. exact Hmt. }
  destruct (Re.search _ _) as [caps|] eqn:Hsearch; [|contradiction].
  apply search_sound in Hsearch as (pre' & text & post' & _ & Hmt').
  apply matches_pattern in Hmt' as (gap' & hex' & _ & _ & Hne' & Hh' & ->).
  exists ("sha256:" +:+ hex'). split; [reflexivity|].
  exists hex'. repeat split; assumption.
Qed.

(** *** The paths of the extractor *)

Lemma with_tempfile_run {A : Type} (suffix name : string) (body : string -> M A)
      (w w1 w2 w3 : World) (t : list event) (r : E A) (f : E string) :
  host (TempFileOpen suffix) w = (w1, inr name) ->
  body name w1 = (w2, t, r) ->
  host (TempFileClose name) w2 = (w3, f) ->
  with_tempfile suffix body w =
  (w3, EvSys (TempFileOpen suffix) :: t ++ [EvSys (TempFileClose name)],
   match f with
   | inl e => inl e
   | inr _ => r
   end).
Proof.
  intros Ho Hb Hc. unfold with_tempfile, bind, try_finally.
  unfold call at 1. rewrite Ho. cbv beta iota zeta. rewrite Hb.
  unfold call. rewrite Hc. reflexivity.
Qed.

Lemma copy_manifests_success (container_id : string)
      (w0 w1 w2 w3 w4 w5 w6 w7 w8 : World)
      (csv_file cm_file copied1 copied2 closed1 closed2 csv_content cm_content : string) :
  host (TempFileOpen ".yaml") w0 = (w1, inr csv_file) ->
  host (SubprocessRun (cp_csv_cmd container_id csv_file)) w1 = (w2, inr copied1) ->
  host (ReadFile csv_file) w2 = (w3, inr csv_content) ->
  host (TempFileClose csv_file) w3 = (w4, inr closed1) ->
  host (TempFileOpen ".yaml") w4 = (w5, inr cm_file) ->
  host (SubprocessRun (cp_cm_cmd container_id cm_file)) w5 = (w6, inr copied2) ->
  host (ReadFile cm_file) w6 = (w7, inr cm_content) ->
  host (TempFileClose cm_file) w7 = (w8, inr closed2) ->
  copy_manifests container_id w0 =
  (w8,
   [EvSys (TempFileOpen ".yaml");
    EvSys (SubprocessRun (cp_csv_cmd container_id csv_file));
    EvSys (ReadFile csv_file);
    EvSys (TempFileClose csv_file);
    EvSys (TempFileOpen ".yaml");
    EvSys (SubprocessRun (cp_cm_cmd container_id cm_file));
    EvSys (ReadFile cm_file);
    EvSys (TempFileClose cm_file)],
   inr (csv_content, cm_content)).
Proof.
  intros Ho1 Hcp1 Hr1 Hc1 Ho2 Hcp2 Hr2 Hc2.
  unfold copy_manifests. unfold bind at 1.
  erewrite with_tempfile_run; [|exact Ho1| |exact Hc1].
  2:{ unfold bind, call. rewrite Hcp1, Hr1. reflexivity. }
  unfold bind at 1.
  erewrite with_tempfile_run; [|exact Ho2| |exact Hc2].
  2:{ unfold bind, call. rewrite Hcp2, Hr2. reflexivity. }
  reflexivity.
Qed.

(** X8: when every command succeeds the extractor makes its ten host
    calls in this order: create, then for each manifest a temporary file,
    the copy into it, the read and the close (the first file is closed
    before the second is opened), then the removal; all three container
    commands after the create use the stripped id, and the result is what
    the patterns find in the two texts read. *)
Theorem extract_bundle_refs_success (bundle_sha stream : string)
        (w w0 w1 w2 w3 w4 w5 w6 w7 w8 w9 : World)
        (out csv_file cm_file copied1 copied2 closed1 closed2 removed
             csv_content cm_content : string) :
  let container_id := PyStr.strip out in
  host (SubprocessRun (create_cmd bundle_sha stream)) w = (w0, inr out) ->
  host (TempFileOpen ".yaml") w0 = (w1, inr csv_file) ->
  host (SubprocessRun (cp_csv_cmd container_id csv_file)) w1 = (w2, inr copied1) ->
  host (ReadFile csv_file) w2 = (w3, inr csv_content) ->
  host (TempFileClose csv_file) w3 = (w4, inr closed1) ->
  host (TempFileOpen ".yaml") w4 = (w5, inr cm_file) ->
  host (SubprocessRun (cp_cm_cmd container_id cm_file)) w5 = (w6, inr copied2) ->
  host (ReadFile cm_file) w6 = (w7, inr cm_content) ->
  host (TempFileClose cm_file) w7 = (w8, inr closed2) ->
  host (SubprocessRun (rm_cmd container_id)) w8 = (w9, inr removed) ->
  extract_bundle_refs bundle_sha stream w =
  (w9,
   [EvSys (SubprocessRun (create_cmd bundle_sha stream));
    EvSys (TempFileOpen ".yaml");
    EvSys (SubprocessRun (cp_csv_cmd container_id csv_file));
    EvSys (ReadFile csv_file);
    EvSys (TempFileClose csv_file);
    EvSys (TempFileOpen ".yaml");
    EvSys (SubprocessRun (cp_cm_cmd container_id cm_file));
    EvSys (ReadFile cm_file);
    EvSys (TempFileClose cm_file);
    EvSys (SubprocessRun (rm_cmd container_id))],
   inr (mkRefs (first_group (Re.search operator_re csv_content))
               (first_group (Re.search agent_re cm_content))
               (first_group (Re.search daemon_re cm_content)))).
Proof.
  intros container_id Hc Ho1 Hcp1 Hr1 Hc1 Ho2 Hcp2 Hr2 Hc2 Hrm.
  rewrite (extract_bundle_refs_run _ _ _ _ _ _ _ _ _ _ Hc
             (copy_manifests_success _ _ _ _ _ _ _ _ _ _ _ _ _ _ _ _ _ _
                Ho1 Hcp1 Hr1 Hc1 Ho2 Hcp2 Hr2 Hc2) Hrm).
  cbn [ebind fst snd]. rewrite parse_refs_total. reflexivity.
Qed.

Lemma create_failure_runs_nothing_else_aux (bundle_sha stream : string)
      (w w1 : World) (e : exn) :
  host (SubprocessRun (create_cmd bundle_sha stream)) w = (w1, inl e) ->
  extract_bundle_refs bundle_sha stream w =
  (w1, [EvSys (SubprocessRun (create_cmd bundle_sha stream))], inl e).
Proof.
  intros H. unfold extract_bundle_refs, bind. unfold call at 1. rewrite H. reflexivity.
Qed.

(** X10: when the copy of the CSV fails, the ConfigMap is never copied:
    the first temporary file is closed, the container is removed, and the
    extractor raises the error of the removal if that failed, else of the
    close if that failed, else of the copy. *)
Theorem first_copy_failure_skips_second (bundle_sha stream : string)
        (w w0 w1 w2 w3 w4 : World) (out csv_file : string) (e : exn)
        (closed removed : E string) :
  let container_id := PyStr.strip out in
  host (SubprocessRun (create_cmd bundle_sha stream)) w = (w0, inr out) ->
  host (TempFileOpen ".yaml") w0 = (w1, inr csv_file) ->
  host (SubprocessRun (cp_csv_cmd container_id csv_file)) w1 = (w2, inl e) ->
  host (TempFileClose csv_file) w2 = (w3, closed) ->
  host (SubprocessRun (rm_cmd container_id)) w3 = (w4, removed) ->
  extract_bundle_refs bundle_sha stream w =
  (w4,
   [EvSys (SubprocessRun (create_cmd bundle_sha stream));
    EvSys (TempFileOpen ".yaml");
    EvSys (SubprocessRun (cp_csv_cmd container_id csv_file));
    EvSys (TempFileClose csv_file);
    EvSys (SubprocessRun (rm_cmd container_id))],
   match removed, closed with
   | inl e', _ => inl e'
   | inr _, inl e' => inl e'
   | inr _, inr _ => inl e
   end).
Proof.
  intros container_id Hc Ho Hcp Hcl Hrm.
  assert (Hcopy : copy_manifests container_id w0 =
                  (w3,
                   [EvSys (TempFileOpen ".yaml");
                    EvSys (SubprocessRun (cp_csv_cmd container_id csv_file));
                    EvSys (TempFileClose csv_file)],
                   match closed with
                   | inl e' => inl e'
                   | inr _ => inl e
                   end)).
  { unfold copy_manifests. unfold bind at 1.
    erewrite with_tempfile_run; [|exact Ho| |exact Hcl].
    2:{ unfold bind, call. rewrite Hcp. reflexivity. }
    destruct closed; reflexivity. }
  rewrite (extract_bundle_refs_run _ _ _ _ _ _ _ _ _ _ Hc Hcopy Hrm).
  destruct removed, closed; reflexivity.
Qed.

(** *** The validator around the extractor *)

Lemma validate_snapshot_extract_raises (snapshot_name namespace : string)
      (w w1 w2 : World) (t1 t2 : list event) (components : gmap string string)
      (stream bu : string) (snap : role -> string) (e : exn) :
  get_snapshot_components snapshot_name namespace w = (w1, t1, inr (components, stream)) ->
  (forall r, components !! component_key r stream = Some (snap r)) ->
  components !! bundle_key stream = Some bu ->
  extract_bundle_refs bu stream w1 = (w2, t2, inl e) ->
  validate_snapshot snapshot_name namespace w =
  (w2,
   head_lines snapshot_name ++ t1
     ++ snapshot_lines (snap Operator) (snap Agent) (snap Daemon) bu ++ t2,
   inl e).
Proof.
  intros Hget Hsnap Hbu Hext.
  unfold validate_snapshot. cbv [bind print lift ret dict_lookup fst snd].
  rewrite Hget. cbv [bind print lift ret dict_lookup fst snd].
  rewrite !Hsnap, Hbu, Hext.
  unfold head_lines, snapshot_lines. cbn [app]. rewrite <- ?app_assoc. reflexivity.
Qed.

(** X9: when [podman create] fails the run ends there: no temporary
    file is made, nothing is copied, no [podman rm] is run, and the process
    exits with status 2 after the error line. *)
Theorem create_failure_runs_nothing_else (snapshot_name namespace : string)
        (w w1 w2 : World) (t1 : list event) (components : gmap string string)
        (stream bu : string) (snap : role -> string) (e : exn) :
  get_snapshot_components snapshot_name namespace w = (w1, t1, inr (components, stream)) ->
  (forall r, components !! component_key r stream = Some (snap r)) ->
  components !! bundle_key stream = Some bu ->
  host (SubprocessRun (create_cmd bu stream)) w1 = (w2, inl e) ->
  main snapshot_name namespace w =
  (w2,
   head_lines snapshot_name ++ t1
     ++ snapshot_lines (snap Operator) (snap Agent) (snap Daemon) bu
     ++ [EvSys (SubprocessRun (create_cmd bu stream));
         EvErr (nl +:+ (if is_CalledProcessError e then "Error: "
                        else "Unexpected error: ") +:+ str_exn e)],
   2).
Proof.
  intros Hget Hsnap Hbu Hc.
  pose proof (validate_snapshot_extract_raises _ _ _ _ _ _ _ _ _ _ _ _ Hget Hsnap Hbu
                (create_failure_runs_nothing_else_aux _ _ _ _ _ Hc)) as Hv.
  unfold main. rewrite Hv.
  destruct (is_CalledProcessError e); rewrite <- !app_assoc; reflexivity.
Qed.

(** X11: a failure of [podman rm] turns the run into an error even when
    both manifests were copied and read: the validator raises the
    removal's exception, after the snapshot section and the extractor's
    host calls, and prints no comparison. *)
Theorem removal_failure_is_raised (snapshot_name namespace : string)
        (w w1 w2 w3 w4 : World) (t1 t3 : list event)
        (components : gmap string string) (stream bu out : string)
        (snap : role -> string) (copied : E (string * string)) (e : exn) :
  get_snapshot_components snapshot_name namespace w = (w1, t1, inr (components, stream)) ->
  (forall r, components !! component_key r stream = Some (snap r)) ->
  components !! bundle_key stream = Some bu ->
  host (SubprocessRun (create_cmd bu stream)) w1 = (w2, inr out) ->
  copy_manifests (PyStr.strip out) w2 = (w3, t3, copied) ->
  host (SubprocessRun (rm_cmd (PyStr.strip out))) w3 = (w4, inl e) ->
  validate_snapshot snapshot_name namespace w =
  (w4,
   head_lines snapshot_name ++ t1
     ++ snapshot_lines (snap Operator) (snap Agent) (snap Daemon) bu
     ++ EvSys (SubprocessRun (create_cmd bu stream))
     :: t3 ++ [EvSys (SubprocessRun (rm_cmd (PyStr.strip out)))],
   inl e).
Proof.
  intros Hget Hsnap Hbu Hc Hcopy Hrm.
  eapply validate_snapshot_extract_raises; try eassumption.
  rewrite (extract_bundle_refs_run _ _ _ _ _ _ _ _ _ _ Hc Hcopy Hrm). reflexivity.
Qed.

Lemma extract_bundle_refs_inv (bundle_sha stream : string) (w w2 : World)
      (t2 : list event) (rf : refs) :
  extract_bundle_refs bundle_sha stream w = (w2, t2, inr rf) ->
  exists csv_content cm_content, parse_refs csv_content cm_content = inr rf.
Proof.
  intros H.
  destruct (host (SubprocessRun (create_cmd bundle_sha stream)) w) as [w0 [e|out]] eqn:Hc.
  { rewrite (create_failure_runs_nothing_else_aux _ _ _ _ _ Hc) in H. discriminate H. }
  destruct (copy_manifests (PyStr.strip out) w0) as [[wa ta] ra] eqn:Hcopy.
  destruct (host (SubprocessRun (rm_cmd (PyStr.strip out))) wa) as [wb f] eqn:Hrm.
  rewrite (extract_bundle_refs_run _ _ _ _ _ _ _ _ _ _ Hc Hcopy Hrm) in H.
  destruct f as [e|x]; cbn [ebind] in H; [discriminate H|].
  destruct ra as [e|[csv_content cm_content]]; cbn [ebind fst snd] in H; [discriminate H|].
  exists csv_content, cm_content. congruence.
Qed.

(** X12: a snapshot digest that is not [sha256:] followed by lower-case
    hexadecimal digits can never be matched: whatever the bundle holds,
    the run that reaches the comparison prints the mismatch line of that
    role and returns 1. *)
Theorem other_digest_form_never_matches (snapshot_name namespace : string)
        (w w1 w2 : World) (t1 t2 : list event) (components : gmap string string)
        (stream bu : string) (snap : role -> string) (rf : refs) (r : role) :
  get_snapshot_components snapshot_name namespace w = (w1, t1, inr (components, stream)) ->
  (forall r', components !! component_key r' stream = Some (snap r')) ->
  components !! bundle_key stream = Some bu ->
  extract_bundle_refs bu stream w1 = (w2, t2, inr rf) ->
  ~ sha256_digest (snap r) ->
  exists t,
    validate_snapshot snapshot_name namespace w = (w2, t, inr 1) /\
    In (EvOut (mismatch_line r)) t.
Proof.
  intros Hget Hsnap Hbu Hext Hform.
  destruct (extract_bundle_refs_inv _ _ _ _ _ _ Hext) as (csv & cm & Hp).
  assert (Hd : differs (ref_of rf r) (snap r) = true).
  { apply differs_true. intros Heq.
    apply Hform. exact (proj1 (parse_refs_sound _ _ _ _ _ Hp Heq)). }
  assert (Hm : all_match rf snap = false).
  { unfold all_match. destruct r; cbn [ref_of] in Hd; rewrite Hd; cbn [negb andb];
      rewrite ?andb_false_r; reflexivity. }
  exists (report snapshot_name t1 t2 snap bu rf). split.
  - rewrite (validate_snapshot_run _ _ _ _ _ _ _ _ _ _ _ _ Hget Hsnap Hbu Hext).
    rewrite Hm. reflexivity.
  - apply mismatch_in_report; [| |exact Hd].
    + exact (quiet_get_snapshot_components _ _ _ _ _ _ Hget).
    + exact (quiet_extract_bundle_refs _ _ _ _ _ _ Hext).
Qed.

(** *** What the output tells *)

Lemma verdict_not_in_role_lines (r : role) (rf : refs) (snap line : string) :
  line = valid_line \/ line = invalid_line ->
  ~ In (EvOut line) (role_lines r rf snap).
Proof.
  intros Hl Hin. unfold role_lines in Hin.
  destruct (differs (ref_of rf r) snap); cbn [In] in Hin;
    destruct Hl as [-> | ->]; destruct r;
    cbv [String.append mismatch_line match_line valid_line invalid_line] in Hin;
    repeat (destruct Hin as [Hin|Hin]; [discriminate Hin|]); exact Hin.
Qed.

Lemma verdict_not_before (snapshot_name op ag da bu line : string) (rf : refs) :
  line = valid_line \/ line = invalid_line ->
  ~ In (EvOut line)
       (head_lines snapshot_name ++ snapshot_lines op ag da bu ++ bundle_lines rf).
Proof.
  intros Hl Hin. unfold head_lines, snapshot_lines, bundle_lines in Hin.
  cbn [app In] in Hin.
  destruct Hl as [-> | ->];
    cbv [String.append valid_line invalid_line] in Hin;
    repeat (destruct Hin as [Hin|Hin]; [discriminate Hin|]); exact Hin.
Qed.

Lemma verdict_in_report (snapshot_name : string) (t1 t2 : list event)
      (snap : role -> string) (bu : string) (rf : refs) :
  Forall is_sys t1 -> Forall is_sys t2 ->
  (In (EvOut valid_line) (report snapshot_name t1 t2 snap bu rf)
   <-> all_match rf snap = true) /\
  (In (EvOut invalid_line) (report snapshot_name t1 t2 snap bu rf)
   <-> all_match rf snap = false) /\
  (forall text, ~ In (EvErr text) (report snapshot_name t1 t2 snap bu rf)).
Proof.
  intros H1 H2. unfold report.
  pose proof (fun line H => verdict_not_before snapshot_name (snap Operator) (snap Agent)
                              (snap Daemon) bu line rf H) as Hnb.
  pose proof (fun r line H => verdict_not_in_role_lines r rf (snap r) line H) as Hnr.
  pose proof (fun line => quiet_no_output t1 line H1) as Hn1.
  pose proof (fun line => quiet_no_output t2 line H2) as Hn2.
  assert (Hin : forall line,
             line = valid_line \/ line = invalid_line ->
             In (EvOut line)
                (head_lines snapshot_name ++ t1
                   ++ snapshot_lines (snap Operator) (snap Agent) (snap Daemon) bu
                   ++ t2 ++ bundle_lines rf
                   ++ role_lines Operator rf (snap Operator)
                   ++ role_lines Agent rf (snap Agent)
                   ++ role_lines Daemon rf (snap Daemon)
                   ++ verdict_lines (all_match rf snap))
             <-> In (EvOut line) (verdict_lines (all_match rf snap))).
  { intros line Hl. specialize (Hnb line Hl).
    pose proof (Hnr Operator line Hl). pose proof (Hnr Agent line Hl).
    pose proof (Hnr Daemon line Hl). specialize (Hn1 line). specialize (Hn2 line).
    rewrite !in_app_iff in *. tauto. }
  split; [|split].
  - rewrite (Hin valid_line (or_introl eq_refl)).
    destruct (all_match rf snap); cbn [verdict_lines In]; split; intros H;
      try reflexivity; try discriminate H; [tauto|].
    repeat (destruct H as [H|H]; [discriminate H|]). destruct H.
  - rewrite (Hin invalid_line (or_intror eq_refl)).
    destruct (all_match rf snap); cbn [verdict_lines In]; split; intros H;
      try reflexivity; try discriminate H; [|tauto].
    repeat (destruct H as [H|H]; [discriminate H|]). destruct H.
  - intros text Hin'. rewrite !in_app_iff in Hin'.
    assert (Hsys : forall t, Forall is_sys t -> ~ In (EvErr text) t).
    { intros t Ht Hi. rewrite Forall_forall in Ht. apply list_elem_of_In in Hi.
      destruct (Ht _ Hi) as [c Hc]. discriminate Hc. }
    unfold head_lines, snapshot_lines, bundle_lines, role_lines, verdict_lines in Hin'.
    destruct (differs (ref_of rf Operator) (snap Operator)),
             (differs (ref_of rf Agent) (snap Agent)),
             (differs (ref_of rf Daemon) (snap Daemon)),
             (all_match rf snap); cbn [In] in Hin';
      repeat (destruct Hin' as [Hin'|Hin']; try discriminate Hin';
              try (exact (Hsys _ H1 Hin')); try (exact (Hsys _ H2 Hin')));
      try destruct Hin'.
Qed.

(** Every run of the validator that raises stopped in the reader, at one
    of the four lookups, or in the extractor. *)
Lemma validate_snapshot_raise_inv (snapshot_name namespace : string) (w w2 : World)
      (t : list event) (e : exn) :
  validate_snapshot snapshot_name namespace w = (w2, t, inl e) ->
  exists n op ag da bu t2,
    t = head_lines snapshot_name
          ++ EvSys (SubprocessRun (oc_cmd snapshot_name namespace))
          :: firstn n (snapshot_lines op ag da bu) ++ t2 /\
    Forall is_sys t2.
Proof.
  intros H.
  destruct (get_snapshot_components snapshot_name namespace w)
    as [[w1 t1] [e1|[components stream]]] eqn:Hget.
  { rewrite (validate_snapshot_reader_raises _ _ _ _ _ _ Hget) in H.
    rewrite get_snapshot_components_run in Hget.
    injection Hget as _ <- _. injection H as _ <- _.
    exists 0%nat, "", "", "", "", []. split; [reflexivity | constructor]. }
  assert (Ht1 : t1 = [EvSys (SubprocessRun (oc_cmd snapshot_name namespace))]).
  { rewrite get_snapshot_components_run in Hget. injection Hget as _ <- _. reflexivity. }
  destruct (components !! component_key Operator stream) as [op|] eqn:Hop.
  2:{ destruct (validate_snapshot_missing_key _ _ _ _ _ _ _ (component_key Operator stream)
                  Hget (or_introl eq_refl) Hop) as (n & op & ag & da & bu & k & Hv).
      rewrite Hv in H. injection H as _ <- _. subst t1.
      exists n, op, ag, da, bu, []. rewrite app_nil_r. split; [reflexivity | constructor]. }
  destruct (components !! component_key Agent stream) as [ag|] eqn:Hag.
  2:{ destruct (validate_snapshot_missing_key _ _ _ _ _ _ _ (component_key Agent stream)
                  Hget (or_intror (or_introl eq_refl)) Hag)
        as (n & op' & ag & da & bu & k & Hv).
      rewrite Hv in H. injection H as _ <- _. subst t1.
      exists n, op', ag, da, bu, []. rewrite app_nil_r. split; [reflexivity | constructor]. }
  destruct (components !! component_key Daemon stream) as [da|] eqn:Hda.
  2:{ destruct (validate_snapshot_missing_key _ _ _ _ _ _ _ (component_key Daemon stream)
                  Hget (or_intror (or_intror (or_introl eq_refl))) Hda)
        as (n & op' & ag' & da & bu & k & Hv).
      rewrite Hv in H. injection H as _ <- _. subst t1.
      exists n, op', ag', da, bu, []. rewrite app_nil_r. split; [reflexivity | constructor]. }
  destruct (components !! bundle_key stream) as [bu|] eqn:Hbu.
  2:{ destruct (validate_snapshot_missing_key _ _ _ _ _ _ _ (bundle_key stream)
                  Hget (or_intror (or_intror (or_intror (or_introl eq_refl)))) Hbu)
        as (n & op' & ag' & da' & bu & k & Hv).
      rewrite Hv in H. injection H as _ <- _. subst t1.
      exists n, op', ag', da', bu, []. rewrite app_nil_r. split; [reflexivity | constructor]. }
  set (snap := fun r => match r with Operator => op | Agent => ag | Daemon => da end).
  assert (Hsnap : forall r, components !! component_key r stream = Some (snap r))
    by (intros []; assumption).
  destruct (extract_bundle_refs bu stream w1) as [[w3 t2] [e2|rf]] eqn:Hext.
  - rewrite (validate_snapshot_extract_raises _ _ _ _ _ _ _ _ _ _ _ _ Hget Hsnap Hbu Hext) in H.
    injection H as _ <- _. subst t1.
    exists 6%nat, op, ag, da, bu, t2. split; [reflexivity|].
    exact (quiet_extract_bundle_refs _ _ _ _ _ _ Hext).
  - rewrite (validate_snapshot_run _ _ _ _ _ _ _ _ _ _ _ _ Hget Hsnap Hbu Hext) in H.
    discriminate H.
Qed.

Lemma verdict_not_in_partial (snapshot_name namespace : string) (n : nat)
      (op ag da bu line : string) (t2 : list event) :
  line = valid_line \/ line = invalid_line ->
  Forall is_sys t2 ->
  ~ In (EvOut line)
       (head_lines snapshot_name
          ++ EvSys (SubprocessRun (oc_cmd snapshot_name namespace))
          :: firstn n (snapshot_lines op ag da bu) ++ t2).
Proof.
  intros Hl H2 Hin. apply in_app_iff in Hin as [Hin|[Hin|Hin]].
  - apply (verdict_not_before snapshot_name op ag da bu line (mkRefs None None None) Hl).
    apply in_app_iff. left. exact Hin.
  - discriminate Hin.
  - apply in_app_iff in Hin as [Hin|Hin].
    + apply In_firstn in Hin.
      apply (verdict_not_before snapshot_name op ag da bu line (mkRefs None None None) Hl).
      rewrite !in_app_iff. right. left. exact Hin.
    + exact (quiet_no_output t2 line H2 Hin).
Qed.

(** X13: once [parse_args] has returned the arguments, the exit status of
    [main] can be read off the output of the run: it is 0 exactly when the
    VALID line was printed, 1 exactly when the INVALID line was printed, 2
    exactly when something was written to the standard error, and it is
    never anything else.  (The exits [parse_args] makes on its own, for
    [--help] or a usage error, come before this part of [main].) *)
Theorem exit_status_in_output (snapshot namespace : string) (w w' : World)
        (t : list event) (code : Z) :
  main snapshot namespace w = (w', t, code) ->
  (code = 0 <-> In (EvOut valid_line) t) /\
  (code = 1 <-> In (EvOut invalid_line) t) /\
  (code = 2 <-> exists text, In (EvErr text) t) /\
  (code = 0 \/ code = 1 \/ code = 2).
Proof.
  intros H. unfold main in H.
  destruct (validate_snapshot snapshot namespace w) as [[w1 t0] [e|rc]] eqn:Hv.
  - assert (Ht : exists line, t = t0 ++ [EvErr line] /\ code = 2).
    { destruct (is_CalledProcessError e); injection H as _ <- <-; eauto. }
    destruct Ht as (line & -> & ->). clear H.
    apply validate_snapshot_raise_inv in Hv as (n & op & ag & da & bu & t2 & -> & H2).
    pose proof (fun l Hl => verdict_not_in_partial snapshot namespace n op ag da bu l t2 Hl H2)
      as Hno.
    split; [|split; [|split]].
    + split; [discriminate|]. intros Hin. apply in_app_iff in Hin as [Hin|[Hin|[]]].
      * exfalso. exact (Hno _ (or_introl eq_refl) Hin).
      * discriminate Hin.
    + split; [discriminate|]. intros Hin. apply in_app_iff in Hin as [Hin|[Hin|[]]].
      * exfalso. exact (Hno _ (or_intror eq_refl) Hin).
      * discriminate Hin.
    + split; [|reflexivity]. intros _. exists line. apply in_app_iff. right. left. reflexivity.
    + right. right. reflexivity.
  - injection H as <- <- <-.
    apply validate_snapshot_inv in Hv
      as (w0 & t1 & components & stream & snap & bu & t2 & rf
          & Hget & Hsnap & Hbu & Hext & -> & ->).
    pose proof (quiet_get_snapshot_components _ _ _ _ _ _ Hget) as Hq1.
    pose proof (quiet_extract_bundle_refs _ _ _ _ _ _ Hext) as Hq2.
    destruct (verdict_in_report snapshot t1 t2 snap bu rf Hq1 Hq2) as (Hva & Hin & Herr).
    rewrite Hva, Hin.
    assert (Hnoerr : ~ exists text, In (EvErr text) (report snapshot t1 t2 snap bu rf))
      by (intros [text H]; exact (Herr text H)).
    destruct (all_match rf snap); intuition (discriminate || auto).
Qed.

Lemma extract_starts_with_create (bundle_sha stream : string) (w : World) :
  exists w' rest r,
    extract_bundle_refs bundle_sha stream w =
    (w', EvSys (SubprocessRun (create_cmd bundle_sha stream)) :: rest, r).
Proof.
  destruct (host (SubprocessRun (create_cmd bundle_sha stream)) w) as [w0 [e|out]] eqn:Hc.
  - rewrite (create_failure_runs_nothing_else_aux _ _ _ _ _ Hc). eauto.
  - destruct (copy_manifests (PyStr.strip out) w0) as [[wa ta] ra] eqn:Hcopy.
    destruct (host (SubprocessRun (rm_cmd (PyStr.strip out))) wa) as [wb f] eqn:Hrm.
    rewrite (extract_bundle_refs_run _ _ _ _ _ _ _ _ _ _ Hc Hcopy Hrm). eauto.
Qed.

(** X14: in a run whose snapshot has the four keys, the first container
    command, sent right after the snapshot section, creates a container of
    the bundle image in the fixed quay.io repository of the detected stream
    at the digest the snapshot gives for the bundle; the repository part of
    the snapshot's own bundle reference is not used. *)
Theorem bundle_image_is_created (snapshot_name namespace : string)
        (w w1 : World) (t1 : list event) (components : gmap string string)
        (stream bu : string) (snap : role -> string) :
  get_snapshot_components snapshot_name namespace w = (w1, t1, inr (components, stream)) ->
  (forall r, components !! component_key r stream = Some (snap r)) ->
  components !! bundle_key stream = Some bu ->
  exists w' rest r,
    validate_snapshot snapshot_name namespace w =
    (w',
     head_lines snapshot_name ++ t1
       ++ snapshot_lines (snap Operator) (snap Agent) (snap Daemon) bu
       ++ EvSys (SubprocessRun
                   ["podman"; "create";
                    "quay.io/redhat-user-workloads/ocp-bpfman-tenant/bpfman-operator-bundle-"
                      +:+ stream +:+ "@" +:+ bu])
       :: rest,
     r).
Proof.
  intros Hget Hsnap Hbu.
  destruct (extract_starts_with_create bu stream w1) as (w2 & rest & [e|rf] & Hext).
  - exists w2, rest, (inl e).
    exact (validate_snapshot_extract_raises _ _ _ _ _ _ _ _ _ _ _ _ Hget Hsnap Hbu Hext).
  - eexists w2, _, _.
    rewrite (validate_snapshot_run _ _ _ _ _ _ _ _ _ _ _ _ Hget Hsnap Hbu Hext).
    unfold report. cbn [app]. reflexivity.
Qed.

(** *** Documents of another shape *)

Lemma snapshot_items_exn (doc : pyval) (e : exn) :
  snapshot_items doc = inl e -> is_CalledProcessError e = false.
Proof.
  unfold snapshot_items, getitem, iter.
  destruct doc as [| | | | |l|kvs]; cbn [ebind];
    try (intros H; injection H as <-; reflexivity).
  destruct (dict_get "spec" kvs) as [spec|]; cbn [ebind];
    [|intros H; injection H as <-; reflexivity].
  destruct spec as [| | | | |l|kvs']; cbn [ebind];
    try (intros H; injection H as <-; reflexivity).
  destruct (dict_get "components" kvs') as [comps|]; cbn [ebind];
    [|intros H; injection H as <-; reflexivity].
  destruct comps; intros H; try discriminate H; injection H as <-; reflexivity.
Qed.

(** X15: when the parsed snapshot is not a dict with a [spec] dict that
    has [components] one can iterate, the run stops right after the query:
    the error of that access (KeyError or TypeError) is reported as an
    unexpected error and the exit status is 2. *)
Theorem malformed_snapshot_exit_2 (snapshot_name namespace : string)
        (w w1 : World) (out stream : string) (doc : pyval) (e : exn) :
  host (SubprocessRun (oc_cmd snapshot_name namespace)) w = (w1, inr out) ->
  json_loads out = inr doc ->
  detect_stream snapshot_name = inr stream ->
  snapshot_items doc = inl e ->
  main snapshot_name namespace w =
  (w1,
   head_lines snapshot_name
     ++ [EvSys (SubprocessRun (oc_cmd snapshot_name namespace));
         EvErr (nl +:+ "Unexpected error: " +:+ str_exn e)],
   2).
Proof.
  intros Hq Hj Hd Hi.
  pose proof (get_snapshot_components_run snapshot_name namespace w) as Hget.
  rewrite Hq in Hget. cbn [fst snd ebind] in Hget.
  assert (Hr : read_snapshot snapshot_name out = inl e).
  { unfold read_snapshot, snapshot_items in *. rewrite Hj, Hd. cbn [ebind].
    destruct (getitem doc "spec") as [e1|spec]; cbn [ebind] in *; [congruence|].
    destruct (getitem spec "components") as [e1|comps]; cbn [ebind] in *; [congruence|].
    rewrite Hi. reflexivity. }
  rewrite Hr in Hget.
  rewrite (main_raises _ _ _ _ _ _ (validate_snapshot_reader_raises _ _ _ _ _ _ Hget)
             (snapshot_items_exn _ _ Hi)).
  rewrite <- app_assoc. reflexivity.
Qed.

(** *** The report, role by role *)

(** X16: in a run that reaches the comparison each role is reported on its
    own: its mismatch line is printed exactly when its extracted digest
    differs from the snapshot's, its match line exactly when they are
    equal, whatever the other two roles give. *)
Theorem each_role_reported (snapshot_name namespace : string) (w w1 w2 : World)
        (t1 t2 : list event) (components : gmap string string)
        (stream bu : string) (snap : role -> string) (rf : refs) :
  get_snapshot_components snapshot_name namespace w = (w1, t1, inr (components, stream)) ->
  (forall r, components !! component_key r stream = Some (snap r)) ->
  components !! bundle_key stream = Some bu ->
  extract_bundle_refs bu stream w1 = (w2, t2, inr rf) ->
  exists t rc,
    validate_snapshot snapshot_name namespace w = (w2, t, inr rc) /\
    forall r,
      (In (EvOut (mismatch_line r)) t <-> ref_of rf r <> Some (snap r)) /\
      (In (EvOut (match_line r)) t <-> ref_of rf r = Some (snap r)).
Proof.
  intros Hget Hsnap Hbu Hext.
  exists (report snapshot_name t1 t2 snap bu rf), (if all_match rf snap then 0 else 1).
  split; [eapply validate_snapshot_run; eassumption|].
  pose proof (quiet_get_snapshot_components _ _ _ _ _ _ Hget) as Hq1.
  pose proof (quiet_extract_bundle_refs _ _ _ _ _ _ Hext) as Hq2.
  intros r. rewrite mismatch_in_report, match_in_report by assumption.
  rewrite differs_true, differs_spec. tauto.
Qed.

(** X17: every run of the validator, however it ends, first prints its
    heading and then sends the cluster query, with the namespace after
    [-n] and the snapshot name after it. *)
Theorem heading_then_query (snapshot_name namespace : string) (w : World) :
  exists w' rest r,
    validate_snapshot snapshot_name namespace w =
    (w',
     EvOut ("=== Validating Snapshot: " +:+ snapshot_name +:+ " ===" +:+ nl)
       :: EvSys (SubprocessRun
                   ["oc"; "get"; "snapshot"; "-n"; namespace; snapshot_name; "-o"; "json"])
       :: rest,
     r).
Proof.
  destruct (validate_snapshot snapshot_name namespace w) as [[w' t] [e|rc]] eqn:Hv.
  - apply validate_snapshot_raise_inv in Hv as (n & op & ag & da & bu & t2 & -> & _).
    eexists w', _, (inl e). reflexivity.
  - apply validate_snapshot_inv in Hv
      as (w0 & t1 & components & stream & snap & bu & t2 & rf
          & Hget & _ & _ & _ & -> & _).
    rewrite get_snapshot_components_run in Hget. injection Hget as _ <- _.
    eexists w', _, (inr rc). reflexivity.
Qed.

(** *** The digests the reader returns *)

Lemma add_components_last_named (before after : list pyval) (comp image : pyval)
      (k sha : string) (m m' : gmap string string) :
  add_components (before ++ comp :: after) m = inr m' ->
  getitem comp "name" = inr (PStr k) ->
  getitem comp "containerImage" = inr image ->
  image_sha image = inr sha ->
  (forall c, In c after -> getitem c "name" <> inr (PStr k)) ->
  m' !! k = Some sha.
Proof.
  intros Hrun Hn Hi Hs Hafter. rewrite add_components_app in Hrun.
  destruct (add_components before m) as [e|m1]; cbn [ebind] in Hrun; [discriminate|].
  cbn [add_components] in Hrun.
  rewrite (add_component_named m1 comp image k sha Hn Hi Hs) in Hrun. cbn [ebind] in Hrun.
  rewrite (add_components_lookup after k Hafter _ _ Hrun).
  apply lookup_insert_eq.
Qed.

Lemma add_components_digest_components (items : list pyval) :
  Forall digest_component items ->
  forall m : gmap string string, exists m', add_components items m = inr m'.
Proof.
  induction 1 as [|comp items (name & image & Hn & Hi & repo & hex & -> & Hr & Hh) _ IH];
    intros m; cbn [add_components]; [eauto|].
  assert (Hs : image_sha (PStr (repo +:+ "@" +:+ "sha256:" +:+ hex))
               = inr ("sha256:" +:+ hex)).
  { apply image_sha_one_at; [exact Hr|].
    rewrite lacks_append, (all_hex_lacks_at _ Hh). reflexivity. }
  rewrite (add_component_named m comp _ name _ Hn Hi Hs). cbn [ebind]. apply IH.
Qed.

Lemma get_snapshot_components_inv (snapshot_name namespace : string) (w w1 w' : World)
      (out : string) (doc : pyval) (items : list pyval) (t : list event)
      (components : gmap string string) (stream : string) :
  host (SubprocessRun (oc_cmd snapshot_name namespace)) w = (w1, inr out) ->
  json_loads out = inr doc ->
  snapshot_items doc = inr items ->
  get_snapshot_components snapshot_name namespace w = (w', t, inr (components, stream)) ->
  detect_stream snapshot_name = inr stream /\
  add_components items ∅ = inr components.
Proof.
  intros Hq Hj Hi Hget. rewrite get_snapshot_components_run, Hq in Hget.
  cbn [fst snd ebind] in Hget. rewrite (read_snapshot_items _ _ _ _ Hj Hi) in Hget.
  destruct (detect_stream snapshot_name) as [e|s]; cbn [ebind] in Hget; [discriminate|].
  destruct (add_components items ∅) as [e|m]; cbn [ebind] in Hget; [discriminate|].
  injection Hget as _ _ <- <-. split; reflexivity.
Qed.

(** C8: the snapshot reader, run on a fetched snapshot, returns a dict
    that maps the name of every component whose image reference has the
    form [repo@sha256:<hex>] to the text of that reference after its first
    [@] (when several components share the name, the last of them is
    meant); and the reader does return, with the query as its only host
    call, when the stream is detectable and every component has a [str]
    name and an image reference of that form. *)
Theorem reader_stores_digest_after_at (snapshot_name namespace : string)
        (w w1 : World) (out : string) (doc : pyval) (items : list pyval) :
  host (SubprocessRun (oc_cmd snapshot_name namespace)) w = (w1, inr out) ->
  json_loads out = inr doc ->
  snapshot_items doc = inr items ->
  (forall stream,
      detect_stream snapshot_name = inr stream ->
      Forall digest_component items ->
      exists components,
        get_snapshot_components snapshot_name namespace w =
        (w1, [EvSys (SubprocessRun (oc_cmd snapshot_name namespace))],
         inr (components, stream))) /\
  (forall w' t components stream,
      get_snapshot_components snapshot_name namespace w
      = (w', t, inr (components, stream)) ->
      forall before comp after name repo hex,
        items = before ++ comp :: after ->
        getitem comp "name" = inr (PStr name) ->
        getitem comp "containerImage"
        = inr (PStr (repo +:+ "@" +:+ "sha256:" +:+ hex)) ->
        PyStr.lacks "@" repo = true ->
        PyStr.all Re.hex_lower hex = true ->
        (forall c, In c after -> getitem c "name" <> inr (PStr name)) ->
        exists digest,
          PyStr.after_first "@" (repo +:+ "@" +:+ "sha256:" +:+ hex) = Some digest /\
          digest = "sha256:" +:+ hex /\
          components !! name = Some digest).
Proof.
  intros Hq Hj Hi. split.
  - intros stream Hd Hall.
    destruct (add_components_digest_components items Hall ∅) as [components Ha].
    exists components.
    exact (get_snapshot_components_ok _ _ _ _ _ _ _ _ _ Hq Hj Hd Hi Ha).
  - intros w' t components stream Hget before comp after name repo hex
           Hitems Hn Him Hr Hh Hafter.
    destruct (get_snapshot_components_inv _ _ _ _ _ _ _ _ _ _ _ Hq Hj Hi Hget) as [_ Ha].
    assert (Hd : PyStr.lacks "@" ("sha256:" +:+ hex) = true)
      by (rewrite lacks_append, (all_hex_lacks_at _ Hh); reflexivity).
    exists ("sha256:" +:+ hex). split; [|split; [reflexivity|]].
    + exact (after_first_one "@" repo ("sha256:" +:+ hex) Hr).
    + subst items.
      exact (add_components_last_named before after comp _ name _ ∅ components
               Ha Hn Him (image_sha_one_at repo _ Hr Hd) Hafter).
Qed.

End Script.

(** ** The string operations and the patterns on examples *)

Example split_one_at :
  PyStr.split "@" "quay.io/bpfman/agent@sha256:2a2b" = ["quay.io/bpfman/agent"; "sha256:2a2b"].
Proof. reflexivity. Qed.

Example split_no_at : PyStr.split "@" "quay.io/bpfman/agent:latest" = ["quay.io/bpfman/agent:latest"].
Proof. reflexivity. Qed.

Example split_empty : PyStr.split "@" "" = [""].
Proof. reflexivity. Qed.

(** With a second [@] the digest kept is the piece between the first two,
    not the whole text after the first. *)
Example image_sha_second_at :
  image_sha (PStr "a@b@c") = inr "b" /\ PyStr.after_first "@" "a@b@c" = Some "b@c".
Proof. split; reflexivity. Qed.

Example strip_container_id : PyStr.strip ("  c0ffee " +:+ nl) = "c0ffee".
Proof. reflexivity. Qed.

Example strip_inner_blank : PyStr.strip (" a b" +:+ nl) = "a b".
Proof. reflexivity. Qed.

Example operator_found :
  Re.search operator_re Demo.csv_text = Some ["sha256:111"].
Proof. reflexivity. Qed.

Example operator_upper_case_hex :
  Re.search operator_re "registry.redhat.io/bpfman/bpfman-rhel9-operator@sha256:ABC" = None.
Proof. reflexivity. Qed.

Example operator_hex_run_is_maximal :
  Re.search operator_re "registry.redhat.io/bpfman/bpfman-rhel9-operator@sha256:0a1bzz"
  = Some ["sha256:0a1b"].
Proof. reflexivity. Qed.

(** The greedy [.*] leaves the last digest of the line to the group. *)
Example agent_last_digest_of_line :
  Re.search agent_re "bpfman.agent.image: a@sha256:1 b@sha256:2" = Some ["sha256:2"].
Proof. reflexivity. Qed.

(** [.*] does not cross a line feed. *)
Example daemon_digest_on_next_line :
  Re.search daemon_re ("bpfman.image: quay.io/bpfman" +:+ nl +:+ "@sha256:3") = None.
Proof. reflexivity. Qed.

Example daemon_not_in_agent_line :
  Re.search daemon_re "bpfman.agent.image: quay.io/bpfman/agent@sha256:2" = None.
Proof. reflexivity. Qed.

Example daemon_after_agent_line :
  Re.search daemon_re (Demo.cm_text "sha256:222") = Some ["sha256:333"].
Proof. reflexivity. Qed.

(** ** The theorems at work on concrete hosts *)

Lemma detect_stream_spec_witness :
  detect_stream "bpfman-ystream-x7k2p" = inr "ystream" /\
  detect_stream "bpfman-zstream-x7k2p" = inr "zstream" /\
  detect_stream "nightly" =
    inl (ValueError "Cannot detect stream from snapshot name: nightly").
Proof.
  split; [|split].
  - apply (proj1 (detect_stream_spec "bpfman-ystream-x7k2p")).
    + exists "bpfman-", "-x7k2p". reflexivity.
    + apply str_in_false. reflexivity.
  - apply (proj1 (proj2 (detect_stream_spec "bpfman-zstream-x7k2p"))).
    + exists "bpfman-", "-x7k2p". reflexivity.
    + apply str_in_false. reflexivity.
  - apply (proj2 (proj2 (detect_stream_spec "nightly")));
      apply str_in_false; reflexivity.
Defined.

Lemma detect_stream_both_witness :
  detect_stream "zstream-to-ystream" = inr "ystream".
Proof.
  apply (detect_stream_both "zstream-to-ystream").
  - exists "zstream-to-", "". reflexivity.
  - exists "", "-to-ystream". reflexivity.
Defined.

Lemma component_digest_after_at_witness :
  exists digest,
    PyStr.after_first "@" "quay.io/bpfman/agent@sha256:2a2b" = Some digest /\
    digest = "sha256:2a2b" /\
    image_sha (PStr "quay.io/bpfman/agent@sha256:2a2b") = inr digest /\
    add_component ∅
      (PDict [("name", PStr "bpfman-agent-ystream");
              ("containerImage", PStr "quay.io/bpfman/agent@sha256:2a2b")])
    = inr (<["bpfman-agent-ystream" := digest]> ∅).
Proof.
  apply (component_digest_after_at ∅ "bpfman-agent-ystream" "quay.io/bpfman/agent" "2a2b");
    reflexivity.
Defined.


(** The snapshot reader on the hosts that answer the query with the
    well-formed snapshot. *)
Lemma demo_components :
  add_components
    [Demo.component "bpfman-operator-ystream"
       (Demo.repo +:+ "bpfman-operator-ystream@sha256:111");
     Demo.component "bpfman-agent-ystream"
       (Demo.repo +:+ "bpfman-agent-ystream@sha256:222");
     Demo.component "bpfman-daemon-ystream"
       (Demo.repo +:+ "bpfman-daemon-ystream@sha256:333");
     Demo.component "bpfman-operator-bundle-ystream"
       (Demo.repo +:+ "bpfman-operator-bundle-ystream@sha256:999")] ∅
  = inr Demo.components.
Proof.
  cbn [add_components].
  erewrite add_component_named by (vm_compute; reflexivity). cbn [ebind].
  erewrite add_component_named by (vm_compute; reflexivity). cbn [ebind].
  erewrite add_component_named by (vm_compute; reflexivity). cbn [ebind].
  erewrite add_component_named by (vm_compute; reflexivity). cbn [ebind].
  reflexivity.
Qed.

Lemma demo_reader (sc : Demo.scenario) :
  Demo.sc_oc sc = inr "<snapshot>" ->
  get_snapshot_components nat (Demo.host sc) Demo.json_loads
    "bpfman-ystream-x7k2p" "ocp-bpfman-tenant" 0%nat =
  (0%nat,
   [EvSys (SubprocessRun (oc_cmd "bpfman-ystream-x7k2p" "ocp-bpfman-tenant"))],
   inr (Demo.components, "ystream")).
Proof.
  intros Hoc.
  eapply get_snapshot_components_ok with (out := "<snapshot>").
  - cbn. rewrite Hoc. reflexivity.
  - reflexivity.
  - reflexivity.
  - reflexivity.
  - exact demo_components.
Qed.

Lemma demo_lookup (r : role) :
  Demo.components !! component_key r "ystream" = Some (Demo.snap r).
Proof. destruct r; vm_compute; reflexivity. Qed.

Lemma demo_lookup_bundle :
  Demo.components !! bundle_key "ystream" = Some "sha256:999".
Proof. vm_compute. reflexivity. Qed.

Lemma validate_snapshot_valid_iff_witness :
  exists t,
    validate_snapshot nat (Demo.host Demo.all_good) Demo.json_loads
      "bpfman-ystream-x7k2p" "ocp-bpfman-tenant" 0%nat = (2%nat, t, inr 0).
Proof.
  epose proof (validate_snapshot_valid_iff nat (Demo.host Demo.all_good) Demo.json_loads
                 "bpfman-ystream-x7k2p" "ocp-bpfman-tenant" 0%nat 0%nat 2%nat
                 _ _ Demo.components "ystream" "sha256:999" Demo.snap
                 (mkRefs (Some "sha256:111") (Some "sha256:222") (Some "sha256:333")))
    as Hthm.
  edestruct Hthm as (t & rc & Hrun & Hzero & _).
  - apply demo_reader. reflexivity.
  - exact demo_lookup.
  - exact demo_lookup_bundle.
  - vm_compute. reflexivity.
  - exists t. rewrite Hrun. f_equal. f_equal. apply Hzero. repeat split.
Defined.

Lemma validate_snapshot_one_mismatch_witness :
  exists t,
    validate_snapshot nat (Demo.host Demo.agent_differs) Demo.json_loads
      "bpfman-ystream-x7k2p" "ocp-bpfman-tenant" 0%nat = (2%nat, t, inr 1) /\
    In (EvOut (mismatch_line Agent)) t /\
    ~ In (EvOut (mismatch_line Operator)) t /\
    ~ In (EvOut (mismatch_line Daemon)) t /\
    In (EvOut (match_line Operator)) t /\
    In (EvOut (match_line Daemon)) t.
Proof.
  epose proof (validate_snapshot_one_mismatch nat (Demo.host Demo.agent_differs)
                 Demo.json_loads
                 "bpfman-ystream-x7k2p" "ocp-bpfman-tenant" 0%nat 0%nat 2%nat
                 _ _ Demo.components "ystream" "sha256:999" Demo.snap
                 (mkRefs (Some "sha256:111") (Some "sha256:444") (Some "sha256:333"))
                 Agent)
    as Hthm.
  edestruct Hthm as (t & Hrun & Hlines).
  - apply demo_reader. reflexivity.
  - exact demo_lookup.
  - exact demo_lookup_bundle.
  - vm_compute. reflexivity.
  - discriminate.
  - intros [] Hne; try reflexivity. contradiction.
  - exists t. split; [exact Hrun|].
    split; [apply (Hlines Agent); reflexivity|].
    split; [intros Hin; apply (Hlines Operator) in Hin; discriminate Hin|].
    split; [intros Hin; apply (Hlines Daemon) in Hin; discriminate Hin|].
    split; [apply (Hlines Operator) | apply (Hlines Daemon)]; discriminate.
Defined.

Lemma main_exit_status_witness :
  snd (main nat (Demo.host Demo.all_good) Demo.json_loads
         "bpfman-ystream-x7k2p" "ocp-bpfman-tenant" 0%nat) = 0 /\
  snd (main nat (Demo.host Demo.agent_differs) Demo.json_loads
         "bpfman-ystream-x7k2p" "ocp-bpfman-tenant" 0%nat) = 1 /\
  main nat (Demo.host Demo.query_fails) Demo.json_loads
    "bpfman-ystream-x7k2p" "ocp-bpfman-tenant" 0%nat =
  (0%nat,
   [EvOut ("=== Validating Snapshot: bpfman-ystream-x7k2p ===" +:+ nl);
    EvSys (SubprocessRun (oc_cmd "bpfman-ystream-x7k2p" "ocp-bpfman-tenant"));
    EvErr (nl +:+ "Error: Command 'oc get snapshot' returned non-zero exit status 125.")],
   2).
Proof.
  split; [|split].
  - let v := eval vm_compute in
        (validate_snapshot nat (Demo.host Demo.all_good) Demo.json_loads
           "bpfman-ystream-x7k2p" "ocp-bpfman-tenant" 0%nat) in
    match v with
    | (?w1, ?t, ?r) =>
        destruct (main_exit_status nat (Demo.host Demo.all_good) Demo.json_loads
                    "bpfman-ystream-x7k2p" "ocp-bpfman-tenant" 0%nat w1 t r)
          as (Hret & _ & _); [vm_compute; reflexivity|];
        destruct (Hret 0 eq_refl) as [-> _]; reflexivity
    end.
  - let v := eval vm_compute in
        (validate_snapshot nat (Demo.host Demo.agent_differs) Demo.json_loads
           "bpfman-ystream-x7k2p" "ocp-bpfman-tenant" 0%nat) in
    match v with
    | (?w1, ?t, ?r) =>
        destruct (main_exit_status nat (Demo.host Demo.agent_differs) Demo.json_loads
                    "bpfman-ystream-x7k2p" "ocp-bpfman-tenant" 0%nat w1 t r)
          as (Hret & _ & _); [vm_compute; reflexivity|];
        destruct (Hret 1 eq_refl) as [-> _]; reflexivity
    end.
  - let v := eval vm_compute in
        (validate_snapshot nat (Demo.host Demo.query_fails) Demo.json_loads
           "bpfman-ystream-x7k2p" "ocp-bpfman-tenant" 0%nat) in
    match v with
    | (?w1, ?t, inl ?e) =>
        destruct (main_exit_status nat (Demo.host Demo.query_fails) Demo.json_loads
                    "bpfman-ystream-x7k2p" "ocp-bpfman-tenant" 0%nat w1 t (inl e))
          as (_ & Hraise & _); [vm_compute; reflexivity|];
        rewrite (Hraise e eq_refl); vm_compute; reflexivity
    end.
Defined.

Lemma unmatched_pattern_is_mismatch_witness :
  exists t,
    validate_snapshot nat (Demo.host Demo.daemon_missing) Demo.json_loads
      "bpfman-ystream-x7k2p" "ocp-bpfman-tenant" 0%nat = (2%nat, t, inr 1) /\
    In (EvOut (mismatch_line Daemon)) t /\
    In (EvOut "   Bundle wants:  None") t.
Proof.
  epose proof (unmatched_pattern_is_mismatch nat (Demo.host Demo.daemon_missing)
                 Demo.json_loads
                 "bpfman-ystream-x7k2p" "ocp-bpfman-tenant" 0%nat 0%nat 0%nat 2%nat 2%nat
                 _ _ Demo.components "ystream" "sha256:999" ("c0ffee" +:+ nl) "c0ffee"
                 Demo.csv_text Demo.cm_text_no_daemon Demo.snap Daemon)
    as Hthm.
  edestruct Hthm as (rf & t2 & t & _ & _ & Hrun & Hmis & Hnone & _).
  - apply demo_reader. reflexivity.
  - exact demo_lookup.
  - exact demo_lookup_bundle.
  - vm_compute. reflexivity.
  - vm_compute. reflexivity.
  - vm_compute. reflexivity.
  - vm_compute. reflexivity.
  - exists t. repeat split; assumption.
Defined.

Lemma container_always_removed_witness :
  exists w3 body e,
    extract_bundle_refs nat (Demo.host Demo.second_copy_fails)
      "sha256:999" "ystream" 0%nat =
    (w3,
     EvSys (SubprocessRun (create_cmd "sha256:999" "ystream"))
       :: body ++ [EvSys (SubprocessRun ["podman"; "rm"; "c0ffee"])],
     inl e).
Proof.
  destruct (container_always_removed nat (Demo.host Demo.second_copy_fails)
              "sha256:999" "ystream" 0%nat 0%nat ("c0ffee" +:+ nl))
    as (w3 & body & r & Hrun & _).
  - vm_compute. reflexivity.
  - exists w3, body.
    destruct r as [e|rf].
    + exists e. exact Hrun.
    + exfalso. apply (f_equal snd) in Hrun. vm_compute in Hrun. discriminate Hrun.
Defined.

Lemma undetectable_stream_after_query_witness :
  validate_snapshot nat (Demo.host Demo.all_good) Demo.json_loads
    "nightly" "ocp-bpfman-tenant" 0%nat =
  (0%nat,
   [EvOut ("=== Validating Snapshot: nightly ===" +:+ nl);
    EvSys (SubprocessRun (oc_cmd "nightly" "ocp-bpfman-tenant"))],
   inl (ValueError "Cannot detect stream from snapshot name: nightly")).
Proof.
  destruct (undetectable_stream_after_query nat (Demo.host Demo.all_good)
              Demo.json_loads "nightly" "ocp-bpfman-tenant" 0%nat)
    as (e & Hrun & _ & _ & Hstream).
  - apply str_in_false. reflexivity.
  - apply str_in_false. reflexivity.
  - rewrite Hrun.
    rewrite (Hstream "<snapshot>" Demo.snapshot_doc eq_refl eq_refl).
    reflexivity.
Defined.

(** C7 as stated fails: with a name that has neither marker the cluster
    query is sent before the stream is looked at, and when the query fails
    the error raised is the query's, not the stream error. *)
Lemma abort_before_any_command_counterexample :
  ~ PyStr.Contains "ystream" "nightly" /\
  ~ PyStr.Contains "zstream" "nightly" /\
  validate_snapshot nat (Demo.host Demo.all_good) Demo.json_loads
    "nightly" "ocp-bpfman-tenant" 0%nat =
  (0%nat,
   [EvOut ("=== Validating Snapshot: nightly ===" +:+ nl);
    EvSys (SubprocessRun
             ["oc"; "get"; "snapshot"; "-n"; "ocp-bpfman-tenant"; "nightly"; "-o"; "json"])],
   inl (ValueError "Cannot detect stream from snapshot name: nightly")) /\
  ~ aborts_before_any_command nat (Demo.host Demo.all_good) Demo.json_loads
      "nightly" "ocp-bpfman-tenant" 0%nat /\
  ~ aborts_before_any_command nat (Demo.host Demo.query_fails) Demo.json_loads
      "nightly" "ocp-bpfman-tenant" 0%nat.
Proof.
  split; [apply str_in_false; reflexivity|].
  split; [apply str_in_false; reflexivity|].
  split; [vm_compute; reflexivity|].
  split.
  - intros [_ Hno].
    apply (Hno ["oc"; "get"; "snapshot"; "-n"; "ocp-bpfman-tenant"; "nightly"; "-o"; "json"]).
    vm_compute. right. left. reflexivity.
  - intros [Herr _]. vm_compute in Herr. discriminate Herr.
Qed.

Lemma incomplete_snapshot_exit_2_witness :
  snd (main nat (Demo.host Demo.no_daemon_component) Demo.json_loads
         "bpfman-ystream-x7k2p" "ocp-bpfman-tenant" 0%nat) = 2 /\
  snd (main nat (Demo.host Demo.no_digest_component) Demo.json_loads
         "bpfman-ystream-x7k2p" "ocp-bpfman-tenant" 0%nat) = 2.
Proof.
  split.
  - epose proof (incomplete_snapshot_exit_2 nat (Demo.host Demo.no_daemon_component)
                   Demo.json_loads "bpfman-ystream-x7k2p" "ocp-bpfman-tenant"
                   0%nat 0%nat "<snapshot without daemon>"
                   Demo.snapshot_doc_no_daemon _) as Hthm.
    edestruct Hthm as (e & n & op & ag & da & bu & Hmain & _).
    + vm_compute. reflexivity.
    + reflexivity.
    + reflexivity.
    + left. exists "ystream", "bpfman-daemon-ystream".
      split; [reflexivity|]. split; [right; right; left; reflexivity|].
      intros comp [<-|[<-|[<-|[]]]]; vm_compute; discriminate.
    + rewrite Hmain. reflexivity.
  - epose proof (incomplete_snapshot_exit_2 nat (Demo.host Demo.no_digest_component)
                   Demo.json_loads "bpfman-ystream-x7k2p" "ocp-bpfman-tenant"
                   0%nat 0%nat "<snapshot without digest>"
                   Demo.snapshot_doc_no_at _) as Hthm.
    edestruct Hthm as (e & n & op & ag & da & bu & Hmain & _).
    + vm_compute. reflexivity.
    + reflexivity.
    + reflexivity.
    + right.
      exists (Demo.component "bpfman-agent-ystream"
                (Demo.repo +:+ "bpfman-agent-ystream:latest")),
             (Demo.repo +:+ "bpfman-agent-ystream:latest").
      split; [right; left; reflexivity|]. split; reflexivity.
    + rewrite Hmain. reflexivity.
Defined.

(** ** The further properties on concrete hosts *)

Lemma detect_stream_label_witness :
  (exists e, detect_stream "nightly" = inl e) /\
  PyStr.Contains "zstream" "bpfman-zstream-x7k2p".
Proof.
  split.
  - apply (proj2 (detect_stream_label "nightly")).
    split; apply str_in_false; reflexivity.
  - apply (proj1 (detect_stream_label "bpfman-zstream-x7k2p") "zstream"). reflexivity.
Defined.

Lemma image_sha_index_error_witness :
  image_sha (PStr "quay.io/bpfman/agent:latest") = inl (IndexError "list index out of range")
  /\ exists d, image_sha (PStr "quay.io/bpfman/agent@sha256:2a2b") = inr d.
Proof.
  split.
  - apply (proj1 (image_sha_index_error "quay.io/bpfman/agent:latest")). reflexivity.
  - destruct (proj2 (image_sha_index_error "quay.io/bpfman/agent@sha256:2a2b") eq_refl)
      as (d & Hd & _).
    exists d. exact Hd.
Defined.

Lemma image_sha_between_ats_witness :
  image_sha (PStr "quay.io/bpfman/agent@sha256:2a2b@sha256:ffff") = inr "sha256:2a2b".
Proof.
  apply (image_sha_between_ats "quay.io/bpfman/agent" "sha256:2a2b" "sha256:ffff");
    reflexivity.
Defined.

Lemma last_component_wins_witness :
  (<["bpfman-agent-ystream" := "sha256:222"]>
     (<["bpfman-agent-ystream" := "sha256:111"]> (∅ : gmap string string)))
  !! "bpfman-agent-ystream" = Some "sha256:222".
Proof.
  apply (last_component_wins
           [Demo.component "bpfman-agent-ystream" "quay.io/bpfman/agent@sha256:111"]
           []
           (Demo.component "bpfman-agent-ystream" "quay.io/bpfman/agent@sha256:222")
           (PStr "quay.io/bpfman/agent@sha256:222")
           "bpfman-agent-ystream" "sha256:222" ∅).
  - cbn [app add_components].
    erewrite add_component_named by (vm_compute; reflexivity). cbn [ebind].
    erewrite add_component_named by (vm_compute; reflexivity). cbn [ebind].
    reflexivity.
  - reflexivity.
  - reflexivity.
  - reflexivity.
  - intros c [].
Defined.

Lemma components_keys_witness :
  is_Some (Demo.components !! "bpfman-daemon-ystream") /\
  ~ is_Some (Demo.components !! "bpfman-daemon-zstream").
Proof.
  pose proof (fun k => components_keys _ k _ _ demo_components) as Hkeys.
  split.
  - apply Hkeys. right.
    exists (Demo.component "bpfman-daemon-ystream"
              (Demo.repo +:+ "bpfman-daemon-ystream@sha256:333")).
    split; [right; right; left; reflexivity | reflexivity].
  - intros H. apply Hkeys in H as [H | (comp & Hin & Hname)].
    + rewrite lookup_empty in H. destruct H as [x H]. discriminate H.
    + destruct Hin as [<-|[<-|[<-|[<-|[]]]]]; vm_compute in Hname; discriminate Hname.
Defined.

Lemma extracted_digest_is_in_manifest_witness :
  sha256_digest "sha256:222" /\
  exists pre gap post,
    Demo.cm_text "sha256:222"
    = pre +:+ "bpfman.agent.image:" +:+ gap +:+ "@" +:+ "sha256:222" +:+ post /\
    PyStr.all Re.dot gap = true.
Proof.
  apply (extracted_digest_is_in_manifest Demo.csv_text (Demo.cm_text "sha256:222")
           (mkRefs (Some "sha256:111") (Some "sha256:222") (Some "sha256:333")) Agent).
  - vm_compute. reflexivity.
  - reflexivity.
Defined.

Lemma present_digest_is_found_witness :
  exists found,
    Re.search daemon_re (Demo.cm_text "sha256:222") = Some [found] /\ sha256_digest found.
Proof.
  destruct (present_digest_is_found Demo.csv_text (Demo.cm_text "sha256:222")
              ("  bpfman.agent.image: registry.redhat.io/bpfman/bpfman-agent@sha256:222"
                 +:+ nl +:+ "  ")
              " registry.redhat.io/bpfman/bpfman" "sha256:333" nl
              (mkRefs (Some "sha256:111") (Some "sha256:222") (Some "sha256:333")) Daemon)
    as (found & Hf & Hd).
  - vm_compute. reflexivity.
  - vm_compute. reflexivity.
  - vm_compute. reflexivity.
  - exists "333". split; [reflexivity|]. split; [discriminate | reflexivity].
  - exists found. split; [|exact Hd].
    cbn [ref_of daemon] in Hf. injection Hf as <-. vm_compute. reflexivity.
Defined.

Lemma extract_bundle_refs_success_witness :
  exists t,
    extract_bundle_refs nat (Demo.host Demo.all_good) "sha256:999" "ystream" 0%nat =
    (2%nat, t,
     inr (mkRefs (Some "sha256:111") (Some "sha256:222") (Some "sha256:333")))
    /\ length t = 10%nat.
Proof.
  epose proof (extract_bundle_refs_success nat (Demo.host Demo.all_good)
                 "sha256:999" "ystream" 0%nat 0%nat 1%nat 1%nat 1%nat 1%nat 2%nat 2%nat
                 2%nat 2%nat 2%nat ("c0ffee" +:+ nl) "/tmp/tmpa.yaml" "/tmp/tmpb.yaml"
                 "" "" "" "" "c0ffee" Demo.csv_text (Demo.cm_text "sha256:222")) as Hthm.
  cbv zeta in Hthm.
  eexists. split.
  - rewrite Hthm by (vm_compute; reflexivity). vm_compute. reflexivity.
  - reflexivity.
Defined.

Lemma create_failure_runs_nothing_else_witness :
  main nat (Demo.host Cases.create_fails) Demo.json_loads
    "bpfman-ystream-x7k2p" "ocp-bpfman-tenant" 0%nat =
  (0%nat,
   head_lines "bpfman-ystream-x7k2p"
     ++ [EvSys (SubprocessRun (oc_cmd "bpfman-ystream-x7k2p" "ocp-bpfman-tenant"))]
     ++ snapshot_lines "sha256:111" "sha256:222" "sha256:333" "sha256:999"
     ++ [EvSys (SubprocessRun (create_cmd "sha256:999" "ystream"));
         EvErr (nl +:+ "Error: Command 'podman create' returned non-zero exit status 125.")],
   2).
Proof.
  rewrite (create_failure_runs_nothing_else nat (Demo.host Cases.create_fails)
             Demo.json_loads "bpfman-ystream-x7k2p" "ocp-bpfman-tenant" 0%nat 0%nat 0%nat
             [EvSys (SubprocessRun (oc_cmd "bpfman-ystream-x7k2p" "ocp-bpfman-tenant"))]
             Demo.components "ystream" "sha256:999" Demo.snap
             (CalledProcessError
                "Command 'podman create' returned non-zero exit status 125.")).
  - reflexivity.
  - apply demo_reader. reflexivity.
  - exact demo_lookup.
  - exact demo_lookup_bundle.
  - vm_compute. reflexivity.
Defined.

Lemma first_copy_failure_skips_second_witness :
  extract_bundle_refs nat (Demo.host Cases.first_copy_fails) "sha256:999" "ystream" 0%nat =
  (1%nat,
   [EvSys (SubprocessRun (create_cmd "sha256:999" "ystream"));
    EvSys (TempFileOpen ".yaml");
    EvSys (SubprocessRun (cp_csv_cmd "c0ffee" "/tmp/tmpa.yaml"));
    EvSys (TempFileClose "/tmp/tmpa.yaml");
    EvSys (SubprocessRun (rm_cmd "c0ffee"))],
   inl (CalledProcessError "Command 'podman cp' returned non-zero exit status 125.")).
Proof.
  rewrite (first_copy_failure_skips_second nat (Demo.host Cases.first_copy_fails)
             "sha256:999" "ystream" 0%nat 0%nat 1%nat 1%nat 1%nat 1%nat
             ("c0ffee" +:+ nl) "/tmp/tmpa.yaml"
             (CalledProcessError "Command 'podman cp' returned non-zero exit status 125.")
             (inr "") (inr "c0ffee")).
  - reflexivity.
  - vm_compute. reflexivity.
  - vm_compute. reflexivity.
  - vm_compute. reflexivity.
  - vm_compute. reflexivity.
  - vm_compute. reflexivity.
Defined.

Lemma removal_failure_is_raised_witness :
  exists t,
    validate_snapshot nat (Demo.host Cases.rm_fails) Demo.json_loads
      "bpfman-ystream-x7k2p" "ocp-bpfman-tenant" 0%nat =
    (2%nat, t,
     inl (CalledProcessError "Command 'podman rm' returned non-zero exit status 125.")).
Proof.
  epose proof (removal_failure_is_raised nat (Demo.host Cases.rm_fails) Demo.json_loads
                 "bpfman-ystream-x7k2p" "ocp-bpfman-tenant" 0%nat 0%nat 0%nat 2%nat 2%nat
                 _ _ Demo.components "ystream" "sha256:999" ("c0ffee" +:+ nl) Demo.snap
                 _ _) as Hthm.
  eexists. apply Hthm.
  - apply demo_reader. reflexivity.
  - exact demo_lookup.
  - exact demo_lookup_bundle.
  - vm_compute. reflexivity.
  - vm_compute. reflexivity.
  - vm_compute. reflexivity.
Defined.

Lemma cases_components_upper :
  add_components
    [Demo.component "bpfman-operator-ystream"
       (Demo.repo +:+ "bpfman-operator-ystream@sha256:111");
     Demo.component "bpfman-agent-ystream"
       (Demo.repo +:+ "bpfman-agent-ystream@sha256:2AB");
     Demo.component "bpfman-daemon-ystream"
       (Demo.repo +:+ "bpfman-daemon-ystream@sha256:333");
     Demo.component "bpfman-operator-bundle-ystream"
       (Demo.repo +:+ "bpfman-operator-bundle-ystream@sha256:999")] ∅
  = inr Cases.components_upper.
Proof.
  cbn [add_components].
  erewrite add_component_named by (vm_compute; reflexivity). cbn [ebind].
  erewrite add_component_named by (vm_compute; reflexivity). cbn [ebind].
  erewrite add_component_named by (vm_compute; reflexivity). cbn [ebind].
  erewrite add_component_named by (vm_compute; reflexivity). cbn [ebind].
  reflexivity.
Qed.

Lemma cases_reader_upper :
  get_snapshot_components nat (Demo.host Cases.upper_digest) Cases.json_loads
    "bpfman-ystream-x7k2p" "ocp-bpfman-tenant" 0%nat =
  (0%nat,
   [EvSys (SubprocessRun (oc_cmd "bpfman-ystream-x7k2p" "ocp-bpfman-tenant"))],
   inr (Cases.components_upper, "ystream")).
Proof.
  eapply get_snapshot_components_ok with (out := "<snapshot upper>");
    [reflexivity | reflexivity | reflexivity | reflexivity | exact cases_components_upper].
Qed.

Lemma other_digest_form_never_matches_witness :
  exists t,
    validate_snapshot nat (Demo.host Cases.upper_digest) Cases.json_loads
      "bpfman-ystream-x7k2p" "ocp-bpfman-tenant" 0%nat = (2%nat, t, inr 1) /\
    In (EvOut (mismatch_line Agent)) t.
Proof.
  epose proof (other_digest_form_never_matches nat (Demo.host Cases.upper_digest)
                 Cases.json_loads "bpfman-ystream-x7k2p" "ocp-bpfman-tenant"
                 0%nat 0%nat 2%nat _ _ Cases.components_upper "ystream" "sha256:999"
                 Cases.snap_upper
                 (mkRefs (Some "sha256:111") (Some "sha256:2") (Some "sha256:333"))
                 Agent) as Hthm.
  apply Hthm.
  - exact cases_reader_upper.
  - intros []; vm_compute; reflexivity.
  - vm_compute. reflexivity.
  - vm_compute. reflexivity.
  - intros (hex & Heq & _ & Hh).
    cbv [Cases.snap_upper String.append] in Heq. injection Heq as <-.
    vm_compute in Hh. discriminate Hh.
Defined.

Lemma exit_status_in_output_witness :
  In (EvOut invalid_line)
     (snd (fst (main nat (Demo.host Demo.agent_differs) Demo.json_loads
                  "bpfman-ystream-x7k2p" "ocp-bpfman-tenant" 0%nat))) /\
  ~ In (EvOut valid_line)
       (snd (fst (main nat (Demo.host Demo.agent_differs) Demo.json_loads
                    "bpfman-ystream-x7k2p" "ocp-bpfman-tenant" 0%nat))).
Proof.
  destruct (main nat (Demo.host Demo.agent_differs) Demo.json_loads
              "bpfman-ystream-x7k2p" "ocp-bpfman-tenant" 0%nat)
    as [[w' t] code] eqn:H.
  destruct (exit_status_in_output nat (Demo.host Demo.agent_differs) Demo.json_loads
              "bpfman-ystream-x7k2p" "ocp-bpfman-tenant" 0%nat w' t code H)
    as (Hzero & Hone & _ & _).
  assert (Hcode : code = 1).
  { apply (f_equal snd) in H. vm_compute in H. symmetry. exact H. }
  cbn [fst snd]. split.
  - apply Hone. exact Hcode.
  - intros Hin. apply Hzero in Hin. rewrite Hcode in Hin. discriminate Hin.
Defined.

Lemma bundle_image_is_created_witness :
  exists w' rest r,
    validate_snapshot nat (Demo.host Demo.all_good) Demo.json_loads
      "bpfman-ystream-x7k2p" "ocp-bpfman-tenant" 0%nat =
    (w',
     head_lines "bpfman-ystream-x7k2p"
       ++ [EvSys (SubprocessRun (oc_cmd "bpfman-ystream-x7k2p" "ocp-bpfman-tenant"))]
       ++ snapshot_lines "sha256:111" "sha256:222" "sha256:333" "sha256:999"
       ++ EvSys (SubprocessRun
                   ["podman"; "create";
                    "quay.io/redhat-user-workloads/ocp-bpfman-tenant/bpfman-operator-bundle-ystream@sha256:999"])
       :: rest,
     r).
Proof.
  apply (bundle_image_is_created nat (Demo.host Demo.all_good) Demo.json_loads
           "bpfman-ystream-x7k2p" "ocp-bpfman-tenant" 0%nat 0%nat
           [EvSys (SubprocessRun (oc_cmd "bpfman-ystream-x7k2p" "ocp-bpfman-tenant"))]
           Demo.components "ystream" "sha256:999" Demo.snap).
  - apply demo_reader. reflexivity.
  - exact demo_lookup.
  - exact demo_lookup_bundle.
Defined.

Lemma malformed_snapshot_exit_2_witness :
  main nat (Demo.host Cases.no_spec) Cases.json_loads
    "bpfman-ystream-x7k2p" "ocp-bpfman-tenant" 0%nat =
  (0%nat,
   head_lines "bpfman-ystream-x7k2p"
     ++ [EvSys (SubprocessRun (oc_cmd "bpfman-ystream-x7k2p" "ocp-bpfman-tenant"));
         EvErr (nl +:+ "Unexpected error: 'spec'")],
   2).
Proof.
  rewrite (malformed_snapshot_exit_2 nat (Demo.host Cases.no_spec) Cases.json_loads
             "bpfman-ystream-x7k2p" "ocp-bpfman-tenant" 0%nat 0%nat
             "<snapshot without spec>" "ystream" Cases.snapshot_doc_no_spec
             (KeyError "spec")); reflexivity.
Defined.

Lemma each_role_reported_witness :
  exists t rc,
    validate_snapshot nat (Demo.host Demo.daemon_missing) Demo.json_loads
      "bpfman-ystream-x7k2p" "ocp-bpfman-tenant" 0%nat = (2%nat, t, inr rc) /\
    In (EvOut (mismatch_line Daemon)) t /\
    In (EvOut (match_line Operator)) t /\
    In (EvOut (match_line Agent)) t.
Proof.
  epose proof (each_role_reported nat (Demo.host Demo.daemon_missing) Demo.json_loads
                 "bpfman-ystream-x7k2p" "ocp-bpfman-tenant" 0%nat 0%nat 2%nat
                 _ _ Demo.components "ystream" "sha256:999" Demo.snap
                 (mkRefs (Some "sha256:111") (Some "sha256:222") None)) as Hthm.
  edestruct Hthm as (t & rc & Hrun & Hlines).
  - apply demo_reader. reflexivity.
  - exact demo_lookup.
  - exact demo_lookup_bundle.
  - vm_compute. reflexivity.
  - exists t, rc. split; [exact Hrun|].
    split; [apply (Hlines Daemon); discriminate|].
    split; [apply (Hlines Operator) | apply (Hlines Agent)]; reflexivity.
Defined.

Lemma reader_stores_digest_after_at_witness :
  exists components,
    get_snapshot_components nat (Demo.host Demo.all_good) Demo.json_loads
      "bpfman-ystream-x7k2p" "ocp-bpfman-tenant" 0%nat =
    (0%nat,
     [EvSys (SubprocessRun (oc_cmd "bpfman-ystream-x7k2p" "ocp-bpfman-tenant"))],
     inr (components, "ystream")) /\
    components !! "bpfman-agent-ystream" = Some "sha256:222" /\
    PyStr.after_first "@" (Demo.repo +:+ "bpfman-agent-ystream@sha256:222")
    = Some "sha256:222".
Proof.
  destruct (reader_stores_digest_after_at nat (Demo.host Demo.all_good) Demo.json_loads
              "bpfman-ystream-x7k2p" "ocp-bpfman-tenant" 0%nat 0%nat "<snapshot>"
              Demo.snapshot_doc
              [Demo.component "bpfman-operator-ystream"
                 (Demo.repo +:+ "bpfman-operator-ystream@sha256:111");
               Demo.component "bpfman-agent-ystream"
                 (Demo.repo +:+ "bpfman-agent-ystream@sha256:222");
               Demo.component "bpfman-daemon-ystream"
                 (Demo.repo +:+ "bpfman-daemon-ystream@sha256:333");
               Demo.component "bpfman-operator-bundle-ystream"
                 (Demo.repo +:+ "bpfman-operator-bundle-ystream@sha256:999")])
    as [Hreturns Hstored].
  - vm_compute. reflexivity.
  - reflexivity.
  - reflexivity.
  - destruct (Hreturns "ystream") as [components Hrun].
    + reflexivity.
    + repeat constructor.
      * exists "bpfman-operator-ystream", (Demo.repo +:+ "bpfman-operator-ystream@sha256:111").
        split; [reflexivity|]. split; [reflexivity|].
        exists (Demo.repo +:+ "bpfman-operator-ystream"), "111".
        split; [vm_compute; reflexivity | split; reflexivity].
      * exists "bpfman-agent-ystream", (Demo.repo +:+ "bpfman-agent-ystream@sha256:222").
        split; [reflexivity|]. split; [reflexivity|].
        exists (Demo.repo +:+ "bpfman-agent-ystream"), "222".
        split; [vm_compute; reflexivity | split; reflexivity].
      * exists "bpfman-daemon-ystream", (Demo.repo +:+ "bpfman-daemon-ystream@sha256:333").
        split; [reflexivity|]. split; [reflexivity|].
        exists (Demo.repo +:+ "bpfman-daemon-ystream"), "333".
        split; [vm_compute; reflexivity | split; reflexivity].
      * exists "bpfman-operator-bundle-ystream",
               (Demo.repo +:+ "bpfman-operator-bundle-ystream@sha256:999").
        split; [reflexivity|]. split; [reflexivity|].
        exists (Demo.repo +:+ "bpfman-operator-bundle-ystream"), "999".
        split; [vm_compute; reflexivity | split; reflexivity].
    + exists components. split; [exact Hrun|].
      destruct (Hstored _ _ _ _ Hrun
                  [Demo.component "bpfman-operator-ystream"
                     (Demo.repo +:+ "bpfman-operator-ystream@sha256:111")]
                  (Demo.component "bpfman-agent-ystream"
                     (Demo.repo +:+ "bpfman-agent-ystream@sha256:222"))
                  [Demo.component "bpfman-daemon-ystream"
                     (Demo.repo +:+ "bpfman-daemon-ystream@sha256:333");
                   Demo.component "bpfman-operator-bundle-ystream"
                     (Demo.repo +:+ "bpfman-operator-bundle-ystream@sha256:999")]
                  "bpfman-agent-ystream" (Demo.repo +:+ "bpfman-agent-ystream") "222")
        as (digest & Hafter & -> & Hlookup).
      * reflexivity.
      * reflexivity.
      * vm_compute. reflexivity.
      * reflexivity.
      * reflexivity.
      * intros c [<-|[<-|[]]]; vm_compute; discriminate.
      * split; [exact Hlookup|]. vm_compute. reflexivity.
Defined.
